(** * Earnout deal platform: backend service adapters

    A shallow embedding of the three backend services of the earnout
    platform,

    - [SealService]   (src/backend/services/seal-service.ts),
    - [WalrusService] (the Walrus storage service),
    - [SuiService]    (the Sui ledger query service),

    together with the parts of the JavaScript platform they rely on
    (string helpers, [Date.prototype.toISOString], [parseInt], SHA-256).

    The services are asynchronous methods that talk to three imported
    SDK clients.  Each method is embedded as a computation in a small
    state-and-exception monad [M]: the state carries the outside world
    (what the SDK clients answer), the list of SDK requests issued so far
    and the console output; the result is either a thrown value or a
    return value. *)

From Stdlib Require Import ZArith NArith String Ascii List Lia Bool.
From Stdlib.Strings Require Import Byte.
From stdpp Require Import base option strings pretty gmap.
Import ListNotations.

Local Open Scope string_scope.
Local Open Scope Z_scope.

(** ** JavaScript platform functions *)

Module Js.

(** A [Uint8Array] / [Buffer]: a sequence of octets. *)
Definition bytes := list byte.

(** Values the code can throw or catch: an [Error] object with its
    message, or some other value (for which the handlers print
    ['Unknown error']). *)
Inductive Thrown :=
| ErrorObj (message : string)
| NonError (description : string).

(** [error instanceof Error ? error.message : 'Unknown error'] *)
Definition error_message (e : Thrown) : string :=
  match e with
  | ErrorObj m => m
  | NonError _ => "Unknown error"
  end.

(** A JavaScript number restricted to the values these services meet:
    an integer or [NaN]. *)
Inductive Number :=
| NaN
| Num (z : Z).

(** Truthiness of an optional string property: [undefined] and [''] are
    falsy. *)
Definition truthy_string (o : option string) : bool :=
  match o with
  | Some s => negb (String.eqb s "")
  | None => false
  end.

(** Truthiness of an optional numeric property: [undefined] and [0] are
    falsy. *)
Definition truthy_number (o : option Z) : bool :=
  match o with
  | Some n => negb (n =? 0)
  | None => false
  end.

(** [a || b || ''] on optional string properties. *)
Definition or_string (a b : option string) : string :=
  match a with
  | Some s => if String.eqb s "" then
                match b with
                | Some t => t
                | None => ""
                end
              else s
  | None => match b with
            | Some t => t
            | None => ""
            end
  end.

(** [a || ''] *)
Definition or_empty (a : option string) : string := or_string a None.

(** [a || 0] *)
Definition or_zero (a : option Z) : Z :=
  match a with
  | Some n => n
  | None => 0
  end.

(** [a || false] *)
Definition or_false (a : option bool) : bool :=
  match a with
  | Some b => b
  | None => false
  end.

(** *** Digits and radix conversion *)

(** The digit characters used by [Number.prototype.toString(radix)]:
    ['0'..'9'] then lowercase ['a'..'z']. *)
Definition digit_char (d : N) : ascii :=
  if (d <? 10)%N then ascii_of_N (48 + d) else ascii_of_N (87 + d).

Fixpoint toString_go (fuel : nat) (radix n : N) (acc : string) : string :=
  match fuel with
  | O => acc
  | S fuel' =>
      let acc' := String (digit_char (n mod radix)) acc in
      if (n / radix =? 0)%N then acc' else toString_go fuel' radix (n / radix) acc'
  end.

(** [n.toString(radix)] for a non-negative integer [n] and
    [2 <= radix <= 36]. *)
Definition toString (radix n : N) : string :=
  toString_go (S (N.size_nat n)) radix n "".

Fixpoint repeat_char (n : nat) (c : ascii) : string :=
  match n with
  | O => ""
  | S n' => String c (repeat_char n' c)
  end.

(** [s.padStart(target, c)] for a one-character filler [c]. *)
Definition padStart (target : nat) (c : ascii) (s : string) : string :=
  repeat_char (target - String.length s)%nat c +:+ s.

Fixpoint join (l : list string) : string :=
  match l with
  | [] => ""
  | s :: l' => s +:+ join l'
  end.

(** [Array.from(bs).map(b => b.toString(16).padStart(2, '0')).join('')] *)
Definition hex_of_bytes (bs : bytes) : string :=
  join (map (fun b => padStart 2 "0" (toString 16 (Byte.to_N b))) bs).

(** Lowercase hexadecimal digits. *)
Definition is_lower_hex (c : ascii) : bool :=
  let n := N_of_ascii c in
  ((48 <=? n) && (n <=? 57) || (97 <=? n) && (n <=? 102))%N.

Fixpoint string_forallb (p : ascii -> bool) (s : string) : bool :=
  match s with
  | EmptyString => true
  | String c s' => p c && string_forallb p s'
  end.

(** *** String splitting *)

(** [s.split(sep)[0]] for a non-empty separator: the part of [s] before
    the first occurrence of [sep], or all of [s] when there is none. *)
Fixpoint split_first (sep s : string) : string :=
  match s with
  | EmptyString => ""
  | String c s' =>
      if String.prefix sep s then "" else String c (split_first sep s')
  end.

(** [s.substring(0, n)] *)
Definition substring0 (n : nat) (s : string) : string := String.substring 0 n s.

(** *** [parseInt(s)] with no radix argument *)

(** The value of a digit character in radixes up to 36. *)
Definition digit_val (c : ascii) : option N :=
  let n := N_of_ascii c in
  if ((48 <=? n) && (n <=? 57))%N then Some (n - 48)%N
  else if ((97 <=? n) && (n <=? 122))%N then Some (n - 87)%N
  else if ((65 <=? n) && (n <=? 90))%N then Some (n - 55)%N
  else None.

(** White space and line terminators within the single-byte range. *)
Definition is_white_space (c : ascii) : bool :=
  let n := N_of_ascii c in
  ((9 <=? n) && (n <=? 13) || (n =? 32) || (n =? 160))%N.

Fixpoint trim_start (s : string) : string :=
  match s with
  | String c s' => if is_white_space c then trim_start s' else s
  | EmptyString => ""
  end.

(** Reads the longest prefix of digits of the radix; [None] when there is
    no digit at all. *)
Fixpoint read_digits (radix : N) (s : string) (acc : option N) : option N :=
  match s with
  | String c s' =>
      match digit_val c with
      | Some d =>
          if (d <? radix)%N
          then read_digits radix s' (Some (match acc with
                                           | Some a => a * radix + d
                                           | None => d
                                           end)%N)
          else acc
      | None => acc
      end
  | EmptyString => acc
  end.

Definition parseInt (s : string) : Number :=
  let s1 := trim_start s in
  let '(negative, s2) :=
    match s1 with
    | String "-" r => (true, r)
    | String "+" r => (false, r)
    | _ => (false, s1)
    end in
  let '(radix, s3) :=
    match s2 with
    | String "0" (String "x" r) => (16%N, r)
    | String "0" (String "X" r) => (16%N, r)
    | _ => (10%N, s2)
    end in
  match read_digits radix s3 None with
  | Some n => Num (if negative then - Z.of_N n else Z.of_N n)
  | None => NaN
  end.

(** *** [new Date(t).toISOString()] *)

(** The largest time value of a valid [Date], in milliseconds. *)
Definition max_time_value : Z := 8640000000000000.

Definition msPerDay : Z := 86400000.

(** Decimal rendering of a non-negative integer, left-padded with zeros. *)
Definition pad_decimal (width : nat) (n : Z) : string :=
  padStart width "0" (toString 10 (Z.to_N n)).

(** Year, month and day of the proleptic Gregorian calendar for a day
    number counted from 1970-01-01. *)
Definition civil_from_days (days : Z) : Z * Z * Z :=
  let z := days + 719468 in
  let era := z / 146097 in
  let doe := z - era * 146097 in
  let yoe := (doe - doe / 1460 + doe / 36524 - doe / 146096) / 365 in
  let doy := doe - (365 * yoe + yoe / 4 - yoe / 100) in
  let mp := (5 * doy + 2) / 153 in
  let d := doy - (153 * mp + 2) / 5 + 1 in
  let m := if mp <? 10 then mp + 3 else mp - 9 in
  let y := yoe + era * 400 + (if m <=? 2 then 1 else 0) in
  (y, m, d).

(** Years 0..9999 print with four digits, the others with a sign and six
    digits. *)
Definition iso_year (y : Z) : string :=
  if (0 <=? y) && (y <=? 9999) then pad_decimal 4 y
  else (if y <? 0 then "-" else "+") +:+ pad_decimal 6 (Z.abs y).

(** The text [YYYY-MM-DDTHH:mm:ss.sssZ] of a time value. *)
Definition iso_string (t : Z) : string :=
  let days := t / msPerDay in
  let tod := t mod msPerDay in
  let '(y, m, d) := civil_from_days days in
  iso_year y +:+ "-" +:+ pad_decimal 2 m +:+ "-" +:+ pad_decimal 2 d
  +:+ "T" +:+ pad_decimal 2 (tod / 3600000)
  +:+ ":" +:+ pad_decimal 2 (tod / 60000 mod 60)
  +:+ ":" +:+ pad_decimal 2 (tod / 1000 mod 60)
  +:+ "." +:+ pad_decimal 3 (tod mod 1000) +:+ "Z".

(** [new Date(t).toISOString()] for an integral time value [t]: a
    [RangeError] outside the supported range. *)
Definition Date_toISOString (t : Z) : Thrown + string :=
  if Z.abs t <=? max_time_value then inr (iso_string t)
  else inl (ErrorObj "Invalid time value").

End Js.

(** ** SHA-256, the digest behind [crypto.subtle.digest('SHA-256', _)] *)

Module Sha256.

Local Open Scope N_scope.

Definition w32 : N := 2 ^ 32.

Definition add32 (a b : N) : N := (a + b) mod w32.

Definition rotr (n x : N) : N :=
  (N.lor (N.shiftr x n) (N.shiftl x (32 - n))) mod w32.

Definition shr (n x : N) : N := N.shiftr x n.

Definition not32 (x : N) : N := N.lxor x (w32 - 1).

Definition Ch (x y z : N) : N := N.lxor (N.land x y) (N.land (not32 x) z).

Definition Maj (x y z : N) : N :=
  N.lxor (N.lxor (N.land x y) (N.land x z)) (N.land y z).

Definition Sigma0 (x : N) : N := N.lxor (N.lxor (rotr 2 x) (rotr 13 x)) (rotr 22 x).
Definition Sigma1 (x : N) : N := N.lxor (N.lxor (rotr 6 x) (rotr 11 x)) (rotr 25 x).
Definition sigma0 (x : N) : N := N.lxor (N.lxor (rotr 7 x) (rotr 18 x)) (shr 3 x).
Definition sigma1 (x : N) : N := N.lxor (N.lxor (rotr 17 x) (rotr 19 x)) (shr 10 x).

(** The first sixty-four primes. *)
Definition primes : list N :=
  [2; 3; 5; 7; 11; 13; 17; 19; 23; 29; 31; 37; 41; 43; 47; 53;
   59; 61; 67; 71; 73; 79; 83; 89; 97; 101; 103; 107; 109; 113; 127; 131;
   137; 139; 149; 151; 157; 163; 167; 173; 179; 181; 191; 193; 197; 199; 211; 223;
   227; 229; 233; 239; 241; 251; 257; 263; 269; 271; 277; 281; 283; 293; 307; 311].

(** Integer cube root by binary descent over the result's bits. *)
Fixpoint cbrt_go (bit : nat) (n r : N) : N :=
  match bit with
  | O => r
  | S bit' =>
      let r' := r + 2 ^ N.of_nat bit' in
      cbrt_go bit' n (if r' * r' * r' <=? n then r' else r)
  end.

Definition cbrt (n : N) : N := cbrt_go 40 n 0.

(** The round constants: the first 32 bits of the fractional parts of the
    cube roots of the first sixty-four primes. *)
Definition K : list N :=
  Eval vm_compute in map (fun p => cbrt (p * 2 ^ 96) mod w32) primes.

(** The initial hash value: the first 32 bits of the fractional parts of
    the square roots of the first eight primes. *)
Definition H0 : list N :=
  Eval vm_compute in map (fun p => N.sqrt (p * 2 ^ 64) mod w32) (firstn 8 primes).

(** Padding: a one bit, zeros up to 56 modulo 64 octets, then the message
    length in bits as a 64-bit big-endian integer. *)
Definition be_bytes (count : nat) (x : N) : list N :=
  map (fun i => (x / 2 ^ (8 * N.of_nat i)) mod 256) (rev (seq 0 count)).

Definition pad (msg : list N) : list N :=
  let len := N.of_nat (length msg) in
  let zeros := N.to_nat ((119 - len mod 64) mod 64) in
  msg ++ [128] ++ repeat 0 zeros ++ be_bytes 8 (8 * len).

Fixpoint words_of_bytes (l : list N) : list N :=
  match l with
  | a :: b :: c :: d :: l' =>
      (a * 2 ^ 24 + b * 2 ^ 16 + c * 2 ^ 8 + d) :: words_of_bytes l'
  | _ => []
  end.

Fixpoint blocks_go (fuel : nat) (ws : list N) : list (list N) :=
  match fuel with
  | O => []
  | S fuel' =>
      match ws with
      | [] => []
      | _ => firstn 16 ws :: blocks_go fuel' (skipn 16 ws)
      end
  end.

Definition blocks (ws : list N) : list (list N) := blocks_go (length ws) ws.

(** The message schedule, kept newest word first while it is extended. *)
Fixpoint schedule_go (count : nat) (rw : list N) : list N :=
  match count with
  | O => rw
  | S count' =>
      let w := add32 (add32 (sigma1 (nth 1 rw 0)) (nth 6 rw 0))
                     (add32 (sigma0 (nth 14 rw 0)) (nth 15 rw 0)) in
      schedule_go count' (w :: rw)
  end.

Definition schedule (block : list N) : list N :=
  rev (schedule_go 48 (rev block)).

(** The eight working variables [a..h]. *)
Record Regs := mkRegs { ra : N; rb : N; rc : N; rd : N; re : N; rf : N; rg : N; rh : N }.

Definition round (s : Regs) (kw : N * N) : Regs :=
  let t1 := add32 (add32 (add32 (rh s) (Sigma1 (re s))) (Ch (re s) (rf s) (rg s)))
                  (add32 (fst kw) (snd kw)) in
  let t2 := add32 (Sigma0 (ra s)) (Maj (ra s) (rb s) (rc s)) in
  mkRegs (add32 t1 t2) (ra s) (rb s) (rc s) (add32 (rd s) t1) (re s) (rf s) (rg s).

Definition compress (h : Regs) (block : list N) : Regs :=
  let s := fold_left round (combine K (schedule block)) h in
  mkRegs (add32 (ra h) (ra s)) (add32 (rb h) (rb s)) (add32 (rc h) (rc s))
         (add32 (rd h) (rd s)) (add32 (re h) (re s)) (add32 (rf h) (rf s))
         (add32 (rg h) (rg s)) (add32 (rh h) (rh s)).

Definition initial : Regs :=
  mkRegs (nth 0 H0 0) (nth 1 H0 0) (nth 2 H0 0) (nth 3 H0 0)
         (nth 4 H0 0) (nth 5 H0 0) (nth 6 H0 0) (nth 7 H0 0).

Definition byte_of_N (n : N) : byte :=
  match Byte.of_N (n mod 256) with
  | Some b => b
  | None => x00
  end.

Definition word_bytes (w : N) : list byte :=
  [byte_of_N (w / 2 ^ 24); byte_of_N (w / 2 ^ 16); byte_of_N (w / 2 ^ 8); byte_of_N w].

Definition digest_bytes (h : Regs) : list byte :=
  word_bytes (ra h) ++ word_bytes (rb h) ++ word_bytes (rc h) ++ word_bytes (rd h)
  ++ word_bytes (re h) ++ word_bytes (rf h) ++ word_bytes (rg h) ++ word_bytes (rh h).

(** The 32-octet SHA-256 digest of a message. *)
Definition sha256 (msg : Js.bytes) : Js.bytes :=
  digest_bytes
    (fold_left compress (blocks (words_of_bytes (pad (map Byte.to_N msg)))) initial).

End Sha256.

(** ** Configuration, SDK clients and the effect monad *)

Import Js.

(** The settings of [config] and [debugConfig] that the services read
    (the configuration module supplies them; absent string settings are
    [None]). *)
Record Config := {
  app_enableServerEncryption : bool;
  seal_policyObjectId : option string;
  sui_backendPrivateKey : option string;
  walrus_maxFileSize : Z;
  walrus_storageEpochs : Z;
  earnout_packageId : option string;
  debug_seal : bool;
  debug_walrus : bool;
  debug_sui : bool;
  env_NODE_ENV : option string
}.

(** *** Console *)

Inductive LogLevel := ConsoleLog | ConsoleWarn | ConsoleError.

Inductive LogArg :=
| LStr (s : string)
| LNum (n : Z)
| LNumber (n : Number)
| LBool (b : bool)
| LThrown (e : Thrown)
| LObject (description : string).

Record LogEntry := { log_level : LogLevel; log_args : list LogArg }.

(** *** SDK data *)

Record Ed25519Keypair := { secretKey : bytes }.

(** A Seal session key is opaque to the services. *)
Record SessionKey := { session_token : string }.

(** [EncryptedObject.parse(data)]: only the identity is read. *)
Record EncryptedObject := { eo_id : string }.

Record EncryptRequest := {
  enc_threshold : Z;
  enc_packageId : string;
  enc_id : string;
  enc_data : bytes
}.

Record SessionKeyRequest := {
  skr_address : string;
  skr_packageId : string;
  skr_ttlMin : Z;
  skr_signer : Ed25519Keypair
}.

Record FetchKeysRequest := {
  fk_ids : list string;
  fk_txBytes : bytes;
  fk_sessionKey : SessionKey;
  fk_threshold : Z
}.

Record DecryptRequest := {
  dec_data : bytes;
  dec_sessionKey : SessionKey;
  dec_txBytes : bytes;
  dec_checkShareConsistency : bool
}.

Record WriteBlobRequest := {
  wb_blob : bytes;
  wb_deletable : bool;
  wb_epochs : Z;
  wb_signer : Ed25519Keypair
}.

Record GetObjectRequest := {
  go_id : string;
  go_showContent : bool;
  go_showType : bool
}.

Record QueryEventsRequest := {
  qe_MoveEventType : string;
  qe_limit : Z
}.

(** A storage certificate, seen through [JSON.stringify]. *)
Record Certificate := { cert_json : string }.

Record WriteBlobResult := {
  wr_blobId : string;
  wr_certificate : Certificate
}.

(** [systemState.committee.epoch] *)
Record SystemState := { committee_epoch : Z }.

(** The tagged hash of a sliver pair: [$kind] and, for a raw digest, the
    [Digest] octets. *)
Record TaggedHash := {
  hash_kind : string;
  hash_Digest : option bytes
}.

Record SliverPairMetadata := { primary_hash : option TaggedHash }.

(** [metadata.metadata.V1]; [unencoded_length] is carried as the value
    [Number(unencoded_length)]. *)
Record BlobMetadataV1 := {
  unencoded_length : Number;
  hashes : option (list SliverPairMetadata)
}.

Record BlobMetadataWithId := { metadata_V1 : BlobMetadataV1 }.

(** One entry of a deal's [walrus_blobs] vector, with every property
    optional as the service declares it. *)
Module Entry.
Record t := {
  blob_id : option string;
  blobId : option string;
  period_id : option string;
  periodId : option string;
  data_type : option string;
  dataType : option string;
  size : option Z;
  uploaded_at : option Z;
  uploadedAt : option Z;
  uploader : option string;
  uploaderAddress : option string
}.
End Entry.

(** The values found in the field map of a Move object. *)
Inductive MoveValue :=
| MString (s : string)
| MBool (b : bool)
| MBlobs (entries : list Entry.t)
| MOption (vec : option (list string))
| MOther.

(** [content]: a Move object with its fields, or a package. *)
Inductive SuiParsedData :=
| moveObject (fields : gmap string MoveValue)
| package.

Record SuiObjectData := { content : option SuiParsedData }.

Record SuiObjectResponse := { data : option SuiObjectData }.

(** [event.parsedJson] of a [DataAuditRecordCreated] event. *)
Record SuiEvent := {
  audit_record_id : option string;
  deal_id : option string
}.

Record EventPage := { events_data : list SuiEvent }.

(** Requests made to the SDK clients. *)
Inductive SdkCall :=
| SealEncrypt (r : EncryptRequest)
| SessionKeyCreate (r : SessionKeyRequest)
| SealFetchKeys (r : FetchKeysRequest)
| SealDecrypt (r : DecryptRequest)
| WalrusWriteBlobToUploadRelay (r : WriteBlobRequest)
| WalrusSystemState
| WalrusGetVerifiedBlobStatus (blob : string)
| WalrusGetBlobMetadata (blob : string)
| SuiGetObject (r : GetObjectRequest)
| SuiQueryEvents (r : QueryEventsRequest).

(** The imported SDKs over a world [W]: what each client call answers
    (a thrown value or a result) and how it changes the world.  The
    first group are local helpers that touch no client; [Date_now] is
    the system clock, which always reads a valid time value. *)
Record Sdk (W : Type) := {
  Buffer_from_base64 : string -> bytes;
  Ed25519Keypair_fromSecretKey : bytes -> Thrown + Ed25519Keypair;
  toSuiAddress : Ed25519Keypair -> string;
  EncryptedObject_parse : bytes -> Thrown + EncryptedObject;
  Date_now : W -> Z;
  Date_now_valid : forall w, (Z.abs (Date_now w) <=? max_time_value) = true;
  sealClient_encrypt : EncryptRequest -> W -> (Thrown + bytes) * W;
  SessionKey_create : SessionKeyRequest -> W -> (Thrown + SessionKey) * W;
  sealClient_fetchKeys : FetchKeysRequest -> W -> (Thrown + unit) * W;
  sealClient_decrypt : DecryptRequest -> W -> (Thrown + bytes) * W;
  walrusClient_writeBlobToUploadRelay : WriteBlobRequest -> W -> (Thrown + WriteBlobResult) * W;
  walrusClient_systemState : W -> (Thrown + SystemState) * W;
  walrusClient_getVerifiedBlobStatus : string -> W -> (Thrown + string) * W;
  walrusClient_getBlobMetadata : string -> W -> (Thrown + BlobMetadataWithId) * W;
  client_getObject : GetObjectRequest -> W -> (Thrown + SuiObjectResponse) * W;
  client_queryEvents : QueryEventsRequest -> W -> (Thrown + EventPage) * W
}.

Arguments Buffer_from_base64 {W}.
Arguments Ed25519Keypair_fromSecretKey {W}.
Arguments toSuiAddress {W}.
Arguments EncryptedObject_parse {W}.
Arguments Date_now {W}.
Arguments Date_now_valid {W}.
Arguments sealClient_encrypt {W}.
Arguments SessionKey_create {W}.
Arguments sealClient_fetchKeys {W}.
Arguments sealClient_decrypt {W}.
Arguments walrusClient_writeBlobToUploadRelay {W}.
Arguments walrusClient_systemState {W}.
Arguments walrusClient_getVerifiedBlobStatus {W}.
Arguments walrusClient_getBlobMetadata {W}.
Arguments client_getObject {W}.
Arguments client_queryEvents {W}.

(** *** The monad *)

Record State (W : Type) := {
  world : W;
  calls : list SdkCall;
  console : list LogEntry
}.

Arguments world {W}.
Arguments calls {W}.
Arguments console {W}.

Definition M (W A : Type) : Type := State W -> (Thrown + A) * State W.

Section Monad.
Context {W : Type}.

Definition ret {A} (a : A) : M W A := fun st => (inr a, st).

Definition throw {A} (e : Thrown) : M W A := fun st => (inl e, st).

Definition bind {A B} (m : M W A) (k : A -> M W B) : M W B :=
  fun st =>
    match m st with
    | (inr a, st') => k a st'
    | (inl e, st') => (inl e, st')
    end.

(** [try { m } catch (error) { handler error }] *)
Definition try_catch {A} (m : M W A) (handler : Thrown -> M W A) : M W A :=
  fun st =>
    match m st with
    | (inr a, st') => (inr a, st')
    | (inl e, st') => handler e st'
    end.

(** A thrown-or-returned value of a local computation. *)
Definition lift {A} (r : Thrown + A) : M W A := fun st => (r, st).

Definition console_write (level : LogLevel) (args : list LogArg) : M W unit :=
  fun st =>
    (inr tt, {| world := world st;
                calls := calls st;
                console := console st ++ [{| log_level := level; log_args := args |}] |}).

(** A request to an SDK client: recorded, answered by the world. *)
Definition request {A} (c : SdkCall) (answer : W -> (Thrown + A) * W) : M W A :=
  fun st =>
    let '(r, w') := answer (world st) in
    (r, {| world := w'; calls := calls st ++ [c]; console := console st |}).

(** [if (flag) { m }] *)
Definition when (flag : bool) (m : M W unit) : M W unit :=
  if flag then m else ret tt.

(** A run from a world in which nothing was requested or printed yet. *)
Definition run {A} (m : M W A) (w : W) : (Thrown + A) * State W :=
  m {| world := w; calls := []; console := [] |}.

End Monad.

Notation "x <- m ;; k" := (bind m (fun x => k))
  (at level 100, m at next level, right associativity).
Notation "m ;;; k" := (bind m (fun _ => k))
  (at level 100, right associativity).

Definition console_log {W} := @console_write W ConsoleLog.
Definition console_warn {W} := @console_write W ConsoleWarn.
Definition console_error {W} := @console_write W ConsoleError.

(** [new Date().toISOString()] *)
Definition now_iso {W} (sdk : Sdk W) : M W string :=
  fun st => (Date_toISOString (Date_now sdk (world st)), st).

(** ** SealService: server-side encryption and decryption *)

Module SealService.

(** The fields of [SealEncryptionConfig] that [encrypt] reads. *)
Record SealEncryptionConfig := {
  policyObjectId : string;
  dealId : string
}.

Record SealEncryptionResult := {
  ciphertext : bytes;
  commitment : string;
  result_policyObjectId : string;
  encryptedAt : string
}.

Record DecryptionMetadata := {
  meta_policyObjectId : string;
  meta_encryptedAt : string
}.

Record SealDecryptionResult := {
  plaintext : bytes;
  metadata : DecryptionMetadata
}.

Inductive UserRole := buyer | seller | auditor.

Definition role_name (r : UserRole) : string :=
  match r with
  | buyer => "buyer"
  | seller => "seller"
  | auditor => "auditor"
  end.

Record AccessVerificationResult := {
  hasAccess : bool;
  role : option UserRole;
  reason : option string
}.

(** The service object: its clients are the SDK record, its only other
    field is the backend keypair. *)
Record t := { backendKeypair : option Ed25519Keypair }.

(** [generateCommitment]: the SHA-256 digest of the data in lowercase
    hexadecimal, after the tag [sha256:]. *)
Definition generateCommitment (data : bytes) : string :=
  let hashArray := Sha256.sha256 data in
  let hashHex := hex_of_bytes hashArray in
  "sha256:" +:+ hashHex.

Section Methods.
Context {W : Type} (sdk : Sdk W) (cfg : Config).

(** The constructor's keypair initialisation: the private key is decoded
    when one is configured; a key the SDK rejects leaves the field
    [null]. *)
Definition init_backendKeypair : option Ed25519Keypair :=
  if truthy_string (sui_backendPrivateKey cfg) then
    match sui_backendPrivateKey cfg with
    | Some key =>
        match Ed25519Keypair_fromSecretKey sdk (Buffer_from_base64 sdk key) with
        | inr keypair => Some keypair
        | inl _ => None
        end
    | None => None
    end
  else None.

Definition new : t := {| backendKeypair := init_backendKeypair |}.

Definition encrypt (this : t) (plaintext : bytes)
    (encryptionConfig : SealEncryptionConfig) : M W SealEncryptionResult :=
  if negb (app_enableServerEncryption cfg) then
    throw (ErrorObj "Server-side encryption is disabled")
  else if negb (truthy_string (seal_policyObjectId cfg)) then
    throw (ErrorObj "Seal policy object ID is not configured")
  else
    try_catch
      (when (debug_seal cfg)
         (console_log [LStr "Encrypting data with Seal"] ;;;
          console_log [LStr "Policy Object ID:"; LStr (policyObjectId encryptionConfig)] ;;;
          console_log [LStr "Data size:"; LNum (Z.of_nat (length plaintext)); LStr "bytes"]) ;;;
       let data := plaintext in
       let req := {| enc_threshold := 2;
                     enc_packageId := split_first "::" (policyObjectId encryptionConfig);
                     enc_id := dealId encryptionConfig;
                     enc_data := data |} in
       encryptedObject <- request (SealEncrypt req) (sealClient_encrypt sdk req) ;;
       let commitment := generateCommitment encryptedObject in
       now <- now_iso sdk ;;
       let result := {| ciphertext := encryptedObject;
                        commitment := commitment;
                        result_policyObjectId := policyObjectId encryptionConfig;
                        encryptedAt := now |} in
       when (debug_seal cfg)
         (console_log [LStr "Encryption successful"] ;;;
          console_log [LStr "Ciphertext size:";
                       LNum (Z.of_nat (length (ciphertext result))); LStr "bytes"] ;;;
          console_log [LStr "Commitment:"; LStr commitment]) ;;;
       ret result)
      (fun error =>
         console_error [LStr "Seal encryption failed:"; LThrown error] ;;;
         throw (ErrorObj ("Failed to encrypt data: " +:+ error_message error))).

Definition decrypt (this : t) (ciphertext : bytes) (dealId userAddress : string)
    : M W SealDecryptionResult :=
  if negb (app_enableServerEncryption cfg) then
    throw (ErrorObj "Server-side decryption is disabled")
  else
    match backendKeypair this with
    | None => throw (ErrorObj "Backend keypair is not configured for decryption")
    | Some _ =>
        try_catch
          (when (debug_seal cfg)
             (console_log [LStr "Decrypting data with Seal"] ;;;
              console_log [LStr "Deal ID:"; LStr dealId] ;;;
              console_log [LStr "User Address:"; LStr userAddress] ;;;
              console_log [LStr "Ciphertext size:";
                           LNum (Z.of_nat (length ciphertext)); LStr "bytes"]) ;;;
           match backendKeypair this with
           | None =>
               throw (ErrorObj "Backend keypair is required for server-side decryption")
           | Some keypair =>
               let data := ciphertext in
               parsedEncryptedBlob <- lift (EncryptedObject_parse sdk data) ;;
               match seal_policyObjectId cfg with
               | None =>
                   throw (ErrorObj "Cannot read properties of undefined (reading 'split')")
               | Some policy =>
                   let skreq := {| skr_address := toSuiAddress sdk keypair;
                                   skr_packageId := split_first "::" policy;
                                   skr_ttlMin := 10;
                                   skr_signer := keypair |} in
                   sessionKey <- request (SessionKeyCreate skreq)
                                         (SessionKey_create sdk skreq) ;;
                   let txBytes : bytes := [] in
                   let fkreq := {| fk_ids := [eo_id parsedEncryptedBlob];
                                   fk_txBytes := txBytes;
                                   fk_sessionKey := sessionKey;
                                   fk_threshold := 2 |} in
                   request (SealFetchKeys fkreq) (sealClient_fetchKeys sdk fkreq) ;;;
                   let dreq := {| dec_data := data;
                                  dec_sessionKey := sessionKey;
                                  dec_txBytes := txBytes;
                                  dec_checkShareConsistency := true |} in
                   plain <- request (SealDecrypt dreq) (sealClient_decrypt sdk dreq) ;;
                   now <- now_iso sdk ;;
                   let result := {| plaintext := plain;
                                    metadata := {| meta_policyObjectId := policy;
                                                   meta_encryptedAt := now |} |} in
                   when (debug_seal cfg)
                     (console_log [LStr "Decryption successful"] ;;;
                      console_log [LStr "Plaintext size:";
                                   LNum (Z.of_nat (length (plaintext result)));
                                   LStr "bytes"]) ;;;
                   ret result
               end
           end)
          (fun error =>
             console_error [LStr "Seal decryption failed:"; LThrown error] ;;;
             throw (ErrorObj ("Failed to decrypt data: " +:+ error_message error)))
    end.

Definition verifyAccess (this : t) (dealId userAddress : string)
    (requiredRole : option UserRole) : M W AccessVerificationResult :=
  try_catch
    (when (debug_seal cfg)
       (console_log [LStr "Verifying access for user:"; LStr userAddress] ;;;
        console_log [LStr "Deal ID:"; LStr dealId] ;;;
        console_log [LStr "Required role:";
                     LStr (match requiredRole with
                           | Some r => role_name r
                           | None => "any"
                           end)]) ;;;
     if bool_decide (env_NODE_ENV cfg = Some "development") then
       console_warn
         [LStr "WARNING: Access verification is in development mode - allowing all access"] ;;;
       ret {| hasAccess := true; role := Some buyer; reason := None |}
     else
       ret {| hasAccess := false; role := None;
              reason := Some "Access verification not yet implemented" |})
    (fun error =>
       console_error [LStr "Access verification failed:"; LThrown error] ;;;
       ret {| hasAccess := false; role := None;
              reason := Some ("Verification error: " +:+ error_message error) |}).

End Methods.

End SealService.

(** ** WalrusService: blob storage *)

Module WalrusService.

Record WalrusUploadResult := {
  blobId : string;
  commitment : string;
  size : Z;
  uploadedAt : string;
  storageEpochs : Z;
  endEpoch : Z
}.

Record BlobInfo := {
  info_blobId : string;
  info_size : Number;
  info_commitment : string;
  info_uploadedAt : string;
  info_storageEpochs : Z;
  info_endEpoch : Z
}.

Record t := { backendKeypair : option Ed25519Keypair }.

(** [formatCertificate]: the first 64 characters of the certificate's
    JSON text after the tag [walrus:]. *)
Definition formatCertificate (certificate : Certificate) : string :=
  "walrus:" +:+ substring0 64 (cert_json certificate).

Section Methods.
Context {W : Type} (sdk : Sdk W) (cfg : Config).

(** [formatMetadata]: the body of the [try] block yields [Some] string
    when it returns one; every other path, a caught exception included,
    falls through to the final [return 'walrus:unknown']. *)
Definition formatMetadata (metadata : BlobMetadataWithId) : M W string :=
  early <- try_catch
    (match hashes (metadata_V1 metadata) with
     | None => throw (ErrorObj "Cannot read properties of undefined (reading '0')")
     | Some hs =>
         let primaryHash := match hs with
                            | h :: _ => primary_hash h
                            | [] => None
                            end in
         match primaryHash with
         | Some ph =>
             if String.eqb (hash_kind ph) "Digest" then
               match hash_Digest ph with
               | Some hashBytes =>
                   let hashHex := hex_of_bytes hashBytes in
                   ret (Some ("walrus:" +:+ hashHex))
               | None => throw (ErrorObj "undefined is not iterable")
               end
             else ret None
         | None => ret None
         end
     end)
    (fun error =>
       console_error [LStr "Failed to extract hash from metadata:"; LThrown error] ;;;
       ret None) ;;
  ret (match early with
       | Some s => s
       | None => "walrus:unknown"
       end).

Definition upload {BlobMetadata : Type} (this : t) (data : bytes)
    (metadata : BlobMetadata) : M W WalrusUploadResult :=
  try_catch
    (when (debug_walrus cfg)
       (console_log [LStr "Uploading to Walrus via relay"] ;;;
        console_log [LStr "Data size:"; LNum (Z.of_nat (length data)); LStr "bytes"] ;;;
        console_log [LStr "Storage epochs:"; LNum (walrus_storageEpochs cfg)]) ;;;
     if Z.of_nat (length data) >? walrus_maxFileSize cfg then
       throw (ErrorObj ("File size " +:+ pretty (Z.of_nat (length data))
                        +:+ " exceeds maximum allowed "
                        +:+ pretty (walrus_maxFileSize cfg) +:+ " bytes"))
     else
       match backendKeypair this with
       | None => throw (ErrorObj "Backend keypair not configured for Walrus uploads")
       | Some keypair =>
           let blob := data in
           let req := {| wb_blob := blob;
                         wb_deletable := true;
                         wb_epochs := walrus_storageEpochs cfg;
                         wb_signer := keypair |} in
           result <- request (WalrusWriteBlobToUploadRelay req)
                             (walrusClient_writeBlobToUploadRelay sdk req) ;;
           when (debug_walrus cfg)
             (console_log [LStr "Upload successful"] ;;;
              console_log [LStr "Blob ID:"; LStr (wr_blobId result)] ;;;
              console_log [LStr "Certificate:";
                           LObject (cert_json (wr_certificate result))]) ;;;
           systemState <- request WalrusSystemState (walrusClient_systemState sdk) ;;
           let currentEpoch := committee_epoch systemState in
           let endEpoch := currentEpoch + walrus_storageEpochs cfg in
           now <- now_iso sdk ;;
           ret {| blobId := wr_blobId result;
                  commitment := formatCertificate (wr_certificate result);
                  size := Z.of_nat (length data);
                  uploadedAt := now;
                  storageEpochs := walrus_storageEpochs cfg;
                  endEpoch := endEpoch |}
       end)
    (fun error =>
       console_error [LStr "Walrus upload failed:"; LThrown error] ;;;
       throw (ErrorObj ("Failed to upload to Walrus: " +:+ error_message error))).

Definition getBlobInfo (this : t) (blobId : string) : M W BlobInfo :=
  try_catch
    (when (debug_walrus cfg)
       (console_log [LStr "Getting blob info"] ;;;
        console_log [LStr "Blob ID:"; LStr blobId]) ;;;
     status <- request (WalrusGetVerifiedBlobStatus blobId)
                       (walrusClient_getVerifiedBlobStatus sdk blobId) ;;
     metadata <- request (WalrusGetBlobMetadata blobId)
                         (walrusClient_getBlobMetadata sdk blobId) ;;
     systemState <- request WalrusSystemState (walrusClient_systemState sdk) ;;
     let currentEpoch := committee_epoch systemState in
     commitment <- formatMetadata metadata ;;
     now <- now_iso sdk ;;
     let blobInfo := {| info_blobId := blobId;
                        info_size := unencoded_length (metadata_V1 metadata);
                        info_commitment := commitment;
                        info_uploadedAt := now;
                        info_storageEpochs := 0;
                        info_endEpoch := currentEpoch |} in
     when (debug_walrus cfg)
       (console_log [LStr "Blob info retrieved"] ;;;
        console_log [LStr "Size:"; LNumber (info_size blobInfo); LStr "bytes"] ;;;
        console_log [LStr "Status:"; LObject status]) ;;;
     ret blobInfo)
    (fun error =>
       console_error [LStr "Failed to get blob info:"; LThrown error] ;;;
       throw (ErrorObj ("Failed to get blob info: " +:+ error_message error))).

End Methods.

End WalrusService.

(** ** SuiService: ledger queries *)

Module SuiService.

Record OnChainBlobReference := {
  blobId : string;
  periodId : string;
  dataType : string;
  size : Z;
  uploadedAt : string;
  uploaderAddress : string
}.

Record DataAuditRecord := {
  id : string;
  dataId : string;
  dealId : string;
  periodId_ : string;
  uploader : string;
  uploadTimestamp : Number;
  audited : bool;
  auditor : option string;
  auditTimestamp : option Number
}.

(** Reading a property at its declared type; a property that is absent
    (or holds a value of another shape) reads as [undefined]. *)
Definition string_field (fields : gmap string MoveValue) (key : string) : option string :=
  match fields !! key with
  | Some (MString s) => Some s
  | _ => None
  end.

Definition bool_field (fields : gmap string MoveValue) (key : string) : option bool :=
  match fields !! key with
  | Some (MBool b) => Some b
  | _ => None
  end.

(** [fields.key?.vec?.[0]] *)
Definition option_head (fields : gmap string MoveValue) (key : string) : option string :=
  match fields !! key with
  | Some (MOption (Some (x :: _))) => Some x
  | _ => None
  end.

(** [value === address] for a field value and a string. *)
Definition strict_eq (value : option MoveValue) (address : string) : bool :=
  match value with
  | Some (MString s) => String.eqb s address
  | _ => false
  end.

(** The event filter of [getDealAuditRecords]: the record identifiers of
    the events of this deal, in event order. *)
Fixpoint auditRecordIds_of (dealId : string) (events : list SuiEvent) : list string :=
  match events with
  | [] => []
  | event :: rest =>
      match deal_id event, audit_record_id event with
      | Some d, Some a =>
          if String.eqb d dealId && negb (String.eqb a "")
          then a :: auditRecordIds_of dealId rest
          else auditRecordIds_of dealId rest
      | _, _ => auditRecordIds_of dealId rest
      end
  end.

(** The record pushed for a fetched audit record object. *)
Definition auditRecord_of (recordId : string) (fields : gmap string MoveValue)
    : DataAuditRecord :=
  {| id := recordId;
     dataId := or_empty (string_field fields "data_id");
     dealId := or_empty (string_field fields "deal_id");
     periodId_ := or_empty (string_field fields "period_id");
     uploader := or_empty (string_field fields "uploader");
     uploadTimestamp :=
       (if truthy_string (string_field fields "upload_timestamp")
        then parseInt (or_empty (string_field fields "upload_timestamp"))
        else Num 0);
     audited := or_false (bool_field fields "audited");
     auditor := option_head fields "auditor";
     auditTimestamp :=
       (if truthy_string (option_head fields "audit_timestamp")
        then Some (parseInt (or_empty (option_head fields "audit_timestamp")))
        else None) |}.

Section Methods.
Context {W : Type} (sdk : Sdk W) (cfg : Config).

(** The arrow function mapped over [walrus_blobs]. *)
Definition blobReference_of (blob : Entry.t) : M W OnChainBlobReference :=
  uploadedAt <-
    (if truthy_number (Entry.uploaded_at blob) then
       lift (Date_toISOString (or_zero (Entry.uploaded_at blob) * 1000))
     else if truthy_number (Entry.uploadedAt blob) then
       lift (Date_toISOString (or_zero (Entry.uploadedAt blob)))
     else now_iso sdk) ;;
  ret {| blobId := or_string (Entry.blob_id blob) (Entry.blobId blob);
         periodId := or_string (Entry.period_id blob) (Entry.periodId blob);
         dataType := or_string (Entry.data_type blob) (Entry.dataType blob);
         size := or_zero (Entry.size blob);
         uploadedAt := uploadedAt;
         uploaderAddress := or_string (Entry.uploader blob) (Entry.uploaderAddress blob) |}.

(** [array.map(f)] for an effectful [f]. *)
Fixpoint mapM {A B} (f : A -> M W B) (l : list A) : M W (list B) :=
  match l with
  | [] => ret []
  | x :: l' =>
      y <- f x ;;
      ys <- mapM f l' ;;
      ret (y :: ys)
  end.

Definition getDealBlobReferences (dealId : string) : M W (list OnChainBlobReference) :=
  try_catch
    (when (debug_sui cfg)
       (console_log [LStr "Querying all blob references for deal:"; LStr dealId]) ;;;
     if negb (truthy_string (earnout_packageId cfg)) then
       console_warn [LStr "EARNOUT_PACKAGE_ID not configured, cannot query on-chain blobs"] ;;;
       ret []
     else
       let req := {| go_id := dealId; go_showContent := true; go_showType := true |} in
       dealObject <- request (SuiGetObject req) (client_getObject sdk req) ;;
       match data dealObject with
       | None => throw (ErrorObj ("Deal not found: " +:+ dealId))
       | Some objectData =>
           match content objectData with
           | Some (moveObject fields) =>
               match fields !! "walrus_blobs" with
               | Some (MBlobs walrusBlobs) =>
                   blobReferences <- mapM blobReference_of walrusBlobs ;;
                   when (debug_sui cfg)
                     (console_log
                        [LStr ("Found " +:+ pretty (length blobReferences)
                               +:+ " blob references for deal " +:+ dealId)]) ;;;
                   ret blobReferences
               | _ =>
                   when (debug_sui cfg)
                     (console_log
                        [LStr "No walrus_blobs field found in Deal object, returning empty list"]) ;;;
                   ret []
               end
           | _ => throw (ErrorObj "Invalid Deal object structure")
           end
       end)
    (fun error =>
       console_error [LStr "Failed to query deal blob references:"; LThrown error] ;;;
       throw (ErrorObj ("Failed to query on-chain blob data: " +:+ error_message error))).

(** The fetch loop of [getDealAuditRecords]: one [try]/[catch] per record
    identifier; [continue] keeps the records collected so far. *)
Fixpoint fetch_auditRecords (ids : list string) (auditRecords : list DataAuditRecord)
    : M W (list DataAuditRecord) :=
  match ids with
  | [] => ret auditRecords
  | recordId :: rest =>
      auditRecords' <-
        try_catch
          (let req := {| go_id := recordId; go_showContent := true; go_showType := false |} in
           obj <- request (SuiGetObject req) (client_getObject sdk req) ;;
           match data obj with
           | None => ret auditRecords
           | Some objectData =>
               match content objectData with
               | Some (moveObject fields) =>
                   ret (auditRecords ++ [auditRecord_of recordId fields])%list
               | _ => ret auditRecords
               end
           end)
          (fun error =>
             console_error [LStr ("Failed to fetch audit record " +:+ recordId +:+ ":");
                            LThrown error] ;;;
             ret auditRecords) ;;
      fetch_auditRecords rest auditRecords'
  end.

Definition getDealAuditRecords (dealId : string) : M W (list DataAuditRecord) :=
  try_catch
    (when (debug_sui cfg)
       (console_log [LStr "Querying audit records for deal:"; LStr dealId]) ;;;
     if negb (truthy_string (earnout_packageId cfg)) then
       console_warn [LStr "EARNOUT_PACKAGE_ID not configured, cannot query audit records"] ;;;
       ret []
     else
       let req := {| qe_MoveEventType :=
                       or_empty (earnout_packageId cfg)
                       +:+ "::earnout::DataAuditRecordCreated";
                     qe_limit := 1000 |} in
       events <- request (SuiQueryEvents req) (client_queryEvents sdk req) ;;
       when (debug_sui cfg)
         (console_log [LStr ("Found " +:+ pretty (length (events_data events))
                             +:+ " DataAuditRecordCreated events")]) ;;;
       let auditRecordIds := auditRecordIds_of dealId (events_data events) in
       if (length auditRecordIds =? 0)%nat then
         when (debug_sui cfg)
           (console_log [LStr "No audit records found for this deal"]) ;;;
         ret []
       else
         auditRecords <- fetch_auditRecords auditRecordIds [] ;;
         when (debug_sui cfg)
           (console_log [LStr ("Retrieved " +:+ pretty (length auditRecords)
                               +:+ " audit records for deal " +:+ dealId)]) ;;;
         ret auditRecords)
    (fun error =>
       console_error [LStr "Failed to query audit records:"; LThrown error] ;;;
       throw (ErrorObj ("Failed to query audit records: " +:+ error_message error))).

Definition verifyDealParticipant (dealId userAddress : string) : M W bool :=
  try_catch
    (when (debug_sui cfg)
       (console_log [LStr "Verifying deal participant:"; LStr userAddress;
                     LStr "for deal:"; LStr dealId]) ;;;
     if negb (truthy_string (earnout_packageId cfg)) then
       console_warn
         [LStr "EARNOUT_PACKAGE_ID not configured, skipping participant verification"] ;;;
       ret true
     else
       let req := {| go_id := dealId; go_showContent := true; go_showType := false |} in
       dealObject <- request (SuiGetObject req) (client_getObject sdk req) ;;
       match data dealObject with
       | None => ret false
       | Some objectData =>
           match content objectData with
           | Some (moveObject fields) =>
               let buyer := fields !! "buyer" in
               let seller := fields !! "seller" in
               let auditor := fields !! "auditor" in
               let isParticipant :=
                 strict_eq buyer userAddress
                 || strict_eq seller userAddress
                 || strict_eq auditor userAddress in
               when (debug_sui cfg)
                 (console_log [LStr "Participant verification result:";
                               LBool isParticipant]) ;;;
               ret isParticipant
           | _ => ret false
           end
       end)
    (fun error =>
       console_error [LStr "Failed to verify deal participant:"; LThrown error] ;;;
       ret false).

End Methods.

End SuiService.

(** ** The remaining methods of the services *)

(** More of the JavaScript string functions. *)
Module JsText.

(** [s.split(sep)] for a one-character separator: the pieces between the
    separators, of which there is always at least one. *)
Fixpoint split_char (sep : ascii) (s : string) : list string :=
  match s with
  | EmptyString => [""]
  | String c s' =>
      if Ascii.eqb c sep then "" :: split_char sep s'
      else match split_char sep s' with
           | piece :: rest => String c piece :: rest
           | [] => [String c ""]
           end
  end.

Fixpoint trim_end (s : string) : string :=
  match s with
  | EmptyString => ""
  | String c s' =>
      let t := trim_end s' in
      if is_white_space c && String.eqb t "" then "" else String c t
  end.

(** [s.trim()] *)
Definition trim (s : string) : string := trim_end (trim_start s).

(** [/^[A-Za-z0-9_-]+$/.test(s)] *)
Definition is_blob_id_char (c : ascii) : bool :=
  let n := N_of_ascii c in
  ((65 <=? n) && (n <=? 90) || (97 <=? n) && (n <=? 122)
   || (48 <=? n) && (n <=? 57) || (n =? 95) || (n =? 45))%N.

End JsText.

(** The key-server list of [SealService]. *)
Module SealKeyServers.

Record KeyServerConfig := {
  objectId : string;
  weight : Z
}.

Section Methods.
Context {W : Type}.

(** [getKeyServerConfigs]; the argument is the value of the environment
    variable [SEAL_KEY_SERVER_OBJECT_IDS], [None] when it is not set. *)
Definition getKeyServerConfigs (SEAL_KEY_SERVER_OBJECT_IDS : option string)
    : M W (list KeyServerConfig) :=
  let keyServerObjectIds :=
    match SEAL_KEY_SERVER_OBJECT_IDS with
    | Some ids => JsText.split_char "," ids
    | None => []
    end in
  when (length keyServerObjectIds =? 0)%nat
    (console_warn [LStr "WARNING: No Seal Key Server object IDs configured"] ;;;
     console_warn [LStr "Set SEAL_KEY_SERVER_OBJECT_IDS in environment variables"] ;;;
     console_warn
       [LStr "Example: SEAL_KEY_SERVER_OBJECT_IDS=0x73d05d62...,0xf5d14a81..."]) ;;;
  ret (map (fun objectId => {| objectId := JsText.trim objectId; weight := 1 |})
           keyServerObjectIds).

End Methods.

End SealKeyServers.

(** The rest of [WalrusService]. *)
Module WalrusConstruction.

Section Methods.
Context {W : Type} (sdk : Sdk W) (cfg : Config).

(** The constructor's keypair initialisation, as in [SealService]. *)
Definition init_backendKeypair : option Ed25519Keypair :=
  if truthy_string (sui_backendPrivateKey cfg) then
    match sui_backendPrivateKey cfg with
    | Some key =>
        match Ed25519Keypair_fromSecretKey sdk (Buffer_from_base64 sdk key) with
        | inr keypair => Some keypair
        | inl _ => None
        end
    | None => None
    end
  else None.

Definition new : WalrusService.t :=
  {| WalrusService.backendKeypair := init_backendKeypair |}.

End Methods.

(** [isValidBlobId] *)
Definition isValidBlobId (blobId : string) : bool :=
  (0 <? String.length blobId)%nat && string_forallb JsText.is_blob_id_char blobId.

End WalrusConstruction.

(** The rest of [SuiService]. *)
Module SuiLookups.

Section Methods.
Context {W : Type} (sdk : Sdk W) (cfg : Config).

(** [getDealBlobIds]; an entry without a [blobId] property contributes
    [undefined], here [None]. *)
Definition getDealBlobIds (dealId : string) : M W (list (option string)) :=
  try_catch
    (when (debug_sui cfg)
       (console_log [LStr "Querying blob IDs for deal:"; LStr dealId]) ;;;
     if negb (truthy_string (earnout_packageId cfg)) then
       console_warn [LStr "EARNOUT_PACKAGE_ID not configured, cannot query on-chain blobs"] ;;;
       ret []
     else
       let req := {| go_id := dealId; go_showContent := true; go_showType := true |} in
       dealObject <- request (SuiGetObject req) (client_getObject sdk req) ;;
       match data dealObject with
       | None => throw (ErrorObj ("Deal not found: " +:+ dealId))
       | Some objectData =>
           match content objectData with
           | Some (moveObject fields) =>
               match fields !! "walrus_blobs" with
               | Some (MBlobs walrusBlobs) =>
                   let blobIds := map Entry.blobId walrusBlobs in
                   when (debug_sui cfg)
                     (console_log
                        [LStr ("Found " +:+ pretty (length blobIds)
                               +:+ " blobs for deal " +:+ dealId)]) ;;;
                   ret blobIds
               | _ =>
                   when (debug_sui cfg)
                     (console_log
                        [LStr "No walrus_blobs field found in Deal object, returning empty list"]) ;;;
                   ret []
               end
           | _ => throw (ErrorObj "Invalid Deal object structure")
           end
       end)
    (fun error =>
       console_error [LStr "Failed to query deal blob IDs:"; LThrown error] ;;;
       throw (ErrorObj ("Failed to query on-chain blob data: " +:+ error_message error))).

(** [getBlobAuditRecord]: [find(...) || null]. *)
Definition getBlobAuditRecord (dealId blobId : string)
    : M W (option SuiService.DataAuditRecord) :=
  try_catch
    (auditRecords <- SuiService.getDealAuditRecords sdk cfg dealId ;;
     ret (List.find (fun record => String.eqb (SuiService.dataId record) blobId)
                    auditRecords))
    (fun error =>
       console_error [LStr "Failed to query blob audit record:"; LThrown error] ;;;
       ret None).

End Methods.

End SuiLookups.

(** * Vocabulary of the properties *)

(** ** Observations on runs *)

(** The approval transaction carried by a key-fetch request is empty. *)
Definition empty_approval (c : SdkCall) : Prop :=
  match c with
  | SealFetchKeys r => fk_txBytes r = []
  | _ => True
  end.

(** The metadata carries a raw digest: the primary hash of its first
    sliver pair is tagged [Digest] and holds the octets [digest]. *)
Definition raw_digest_of (metadata : BlobMetadataWithId) (digest : bytes) : Prop :=
  exists pair rest hash,
    hashes (metadata_V1 metadata) = Some (pair :: rest)
    /\ primary_hash pair = Some hash
    /\ hash_kind hash = "Digest"
    /\ hash_Digest hash = Some digest.

(** The request [verifyDealParticipant] and the fetch loop make for an
    object. *)
Definition content_request (objectId : string) : GetObjectRequest :=
  {| go_id := objectId; go_showContent := true; go_showType := false |}.

(** The request [getDealBlobReferences] makes for the deal. *)
Definition deal_request (dealId : string) : GetObjectRequest :=
  {| go_id := dealId; go_showContent := true; go_showType := true |}.

Section Observations.
Context {W : Type} (sdk : Sdk W).

(** The answers of the ledger to the fetches of the loop, one per record
    identifier and in loop order, each fetch seeing the world the
    previous one left. *)
Fixpoint fetch_answers (ids : list string) (w : W) : list (Thrown + SuiObjectResponse) :=
  match ids with
  | [] => []
  | recordId :: rest =>
      let '(answer, w') := client_getObject sdk (content_request recordId) w in
      answer :: fetch_answers rest w'
  end.

(** The record a fetch contributes: none when the fetch raised, found
    no object, or found something that is not a Move object. *)
Definition record_of_answer (recordId : string) (answer : Thrown + SuiObjectResponse)
    : option SuiService.DataAuditRecord :=
  match answer with
  | inr response =>
      match data response with
      | Some objectData =>
          match content objectData with
          | Some (moveObject fields) => Some (SuiService.auditRecord_of recordId fields)
          | _ => None
          end
      | None => None
      end
  | inl _ => None
  end.

(** A fetch that answered with a Move object. *)
Definition fetched_object (answer : Thrown + SuiObjectResponse) : Prop :=
  exists fields,
    answer = inr {| data := Some {| content := Some (moveObject fields) |} |}.

End Observations.

(** Among the fetches exactly the one at position [k] raises and all the
    others answer with an object. *)
Definition one_fetch_fails (answers : list (Thrown + SuiObjectResponse)) (k : nat) : Prop :=
  (exists e, answers !! k = Some (inl e))
  /\ (forall j answer, j <> k -> answers !! j = Some answer -> fetched_object answer).

(** The upload time [getDealBlobReferences] prints for an entry is a
    valid time value: [uploaded_at] seconds when that is set and not
    zero, else [uploadedAt] milliseconds when that is set and not zero
    (else the clock is printed, which is always valid). *)
Definition upload_time_in_range (blob : Entry.t) : Prop :=
  if truthy_number (Entry.uploaded_at blob)
  then Z.abs (or_zero (Entry.uploaded_at blob) * 1000) <= max_time_value
  else if truthy_number (Entry.uploadedAt blob)
       then Z.abs (or_zero (Entry.uploadedAt blob)) <= max_time_value
       else True.

(** An event announces the audit record [recordId] for the deal. *)
Definition announces (dealId recordId : string) (event : SuiEvent) : Prop :=
  deal_id event = Some dealId /\ audit_record_id event = Some recordId /\ recordId <> "".

(** Reading a hexadecimal text back: two digits per octet. *)
Definition hex_octet (c1 c2 : ascii) : option byte :=
  match digit_val c1, digit_val c2 with
  | Some h, Some l => if ((h <? 16) && (l <? 16))%N then Byte.of_N (16 * h + l) else None
  | _, _ => None
  end.

Fixpoint hex_decode (s : string) : option bytes :=
  match s with
  | EmptyString => Some []
  | String c1 (String c2 rest) =>
      match hex_octet c1 c2, hex_decode rest with
      | Some b, Some bs => Some (b :: bs)
      | _, _ => None
      end
  | String _ EmptyString => None
  end.

(** The configuration with another policy identifier. *)
Definition with_policy (cfg : Config) (policy : option string) : Config :=
  {| app_enableServerEncryption := app_enableServerEncryption cfg;
     seal_policyObjectId := policy;
     sui_backendPrivateKey := sui_backendPrivateKey cfg;
     walrus_maxFileSize := walrus_maxFileSize cfg;
     walrus_storageEpochs := walrus_storageEpochs cfg;
     earnout_packageId := earnout_packageId cfg;
     debug_seal := debug_seal cfg;
     debug_walrus := debug_walrus cfg;
     debug_sui := debug_sui cfg;
     env_NODE_ENV := env_NODE_ENV cfg |}.

(** The requests the services make of the SDK: the relay write of
    [upload], the encryption of [encrypt], and the session, key fetch and
    decryption of [decrypt]. *)
Definition relay_request (cfg : Config) (keypair : Ed25519Keypair) (data : bytes)
    : WriteBlobRequest :=
  {| wb_blob := data;
     wb_deletable := true;
     wb_epochs := walrus_storageEpochs cfg;
     wb_signer := keypair |}.

Definition encrypt_request (plaintext : bytes)
    (encryptionConfig : SealService.SealEncryptionConfig) : EncryptRequest :=
  {| enc_threshold := 2;
     enc_packageId := split_first "::" (SealService.policyObjectId encryptionConfig);
     enc_id := SealService.dealId encryptionConfig;
     enc_data := plaintext |}.

Definition session_request {W : Type} (sdk : Sdk W) (keypair : Ed25519Keypair)
    (policy : string) : SessionKeyRequest :=
  {| skr_address := toSuiAddress sdk keypair;
     skr_packageId := split_first "::" policy;
     skr_ttlMin := 10;
     skr_signer := keypair |}.

Definition keys_request (blob : EncryptedObject) (sessionKey : SessionKey) : FetchKeysRequest :=
  {| fk_ids := [eo_id blob];
     fk_txBytes := [];
     fk_sessionKey := sessionKey;
     fk_threshold := 2 |}.

Definition plaintext_request (ciphertext : bytes) (sessionKey : SessionKey) : DecryptRequest :=
  {| dec_data := ciphertext;
     dec_sessionKey := sessionKey;
     dec_txBytes := [];
     dec_checkShareConsistency := true |}.

(** The first and the last character of a string, and the number of
    occurrences of a character. *)
Definition first_char (s : string) : option ascii :=
  match s with
  | String c _ => Some c
  | EmptyString => None
  end.

Fixpoint last_char (s : string) : option ascii :=
  match s with
  | EmptyString => None
  | String c EmptyString => Some c
  | String _ s' => last_char s'
  end.

Fixpoint count_char (c : ascii) (s : string) : nat :=
  match s with
  | EmptyString => 0
  | String d s' => (if Ascii.eqb d c then 1 else 0) + count_char c s'
  end.

(** A string that neither starts nor ends with white space. *)
Definition trimmed (s : string) : Prop :=
  (forall c, first_char s = Some c -> is_white_space c = false)
  /\ (forall c, last_char s = Some c -> is_white_space c = false).

(** ** Blob entries under either naming convention *)

(** The values of one blob entry, whatever names they are stored under. *)
Record BlobValues := {
  v_blob : option string;
  v_period : option string;
  v_type : option string;
  v_size : option Z;
  v_time : option Z;
  v_uploader : option string
}.

(** The entry that stores the values under the snake_case names. *)
Definition snake_entry (v : BlobValues) : Entry.t :=
  {| Entry.blob_id := v_blob v; Entry.blobId := None;
     Entry.period_id := v_period v; Entry.periodId := None;
     Entry.data_type := v_type v; Entry.dataType := None;
     Entry.size := v_size v;
     Entry.uploaded_at := v_time v; Entry.uploadedAt := None;
     Entry.uploader := v_uploader v; Entry.uploaderAddress := None |}.

(** The entry that stores the same values under the camelCase names. *)
Definition camel_entry (v : BlobValues) : Entry.t :=
  {| Entry.blob_id := None; Entry.blobId := v_blob v;
     Entry.period_id := None; Entry.periodId := v_period v;
     Entry.data_type := None; Entry.dataType := v_type v;
     Entry.size := v_size v;
     Entry.uploaded_at := None; Entry.uploadedAt := v_time v;
     Entry.uploader := None; Entry.uploaderAddress := v_uploader v |}.

(** The values with the upload time converted from seconds to
    milliseconds. *)
Definition in_milliseconds (v : BlobValues) : BlobValues :=
  {| v_blob := v_blob v; v_period := v_period v; v_type := v_type v;
     v_size := v_size v;
     v_time := (fun t => t * 1000) <$> v_time v;
     v_uploader := v_uploader v |}.

(** ** The normal form of a blob entry *)

(** A string property is present when it is set and not empty, a numeric
    one when it is set and not zero. *)
Definition present_string (property : option string) (s : string) : Prop :=
  property = Some s /\ s <> "".

Definition present_number (property : option Z) (n : Z) : Prop :=
  property = Some n /\ n <> 0.

(** [out] is the snake_case property when that is present, otherwise the
    camelCase property when that is present, otherwise the empty
    string. *)
Definition prefers_snake_case (snake camel : option string) (out : string) : Prop :=
  (forall s, present_string snake s -> out = s)
  /\ ((forall s, ~ present_string snake s) ->
      (forall c, present_string camel c -> out = c)
      /\ ((forall c, ~ present_string camel c) -> out = "")).

(** [out] is the number when that is present, otherwise zero. *)
Definition number_or_zero (property : option Z) (out : Z) : Prop :=
  (forall n, present_number property n -> out = n)
  /\ ((forall n, ~ present_number property n) -> out = 0).

(** [out] is the printed date of [uploaded_at] seconds when that is
    present, otherwise of [uploadedAt] milliseconds when that is present,
    otherwise of the clock, which stands at [now] milliseconds. *)
Definition prefers_seconds (now : Z) (uploaded_at uploadedAt : option Z) (out : string)
    : Prop :=
  (forall t, present_number uploaded_at t -> Date_toISOString (t * 1000) = inr out)
  /\ ((forall t, ~ present_number uploaded_at t) ->
      (forall t, present_number uploadedAt t -> Date_toISOString t = inr out)
      /\ ((forall t, ~ present_number uploadedAt t) -> Date_toISOString now = inr out)).

(** The reference is the normal form of the entry, the clock being read
    in the world [w]. *)
Definition normalised {W} (sdk : Sdk W) (w : W) (entry : Entry.t)
    (reference : SuiService.OnChainBlobReference) : Prop :=
  prefers_snake_case (Entry.blob_id entry) (Entry.blobId entry)
                     (SuiService.blobId reference)
  /\ prefers_snake_case (Entry.period_id entry) (Entry.periodId entry)
                        (SuiService.periodId reference)
  /\ prefers_snake_case (Entry.data_type entry) (Entry.dataType entry)
                        (SuiService.dataType reference)
  /\ number_or_zero (Entry.size entry) (SuiService.size reference)
  /\ prefers_seconds (Date_now sdk w) (Entry.uploaded_at entry) (Entry.uploadedAt entry)
                     (SuiService.uploadedAt reference)
  /\ prefers_snake_case (Entry.uploader entry) (Entry.uploaderAddress entry)
                        (SuiService.uploaderAddress reference).

(** ** Test doubles

    A world without state whose clients answer from fixed tables: the
    ledger objects by identifier, one page of events and one blob
    metadata record.  The clock stands at 2023-11-14T22:13:20Z. *)

Module Fixture.

Definition keypair : Ed25519Keypair := {| secretKey := [x2a] |}.

Definition sealed : bytes := [x01; x02; x03].

Definition sdk (objects : string -> Thrown + SuiObjectResponse)
    (events : list SuiEvent) (metadata : BlobMetadataWithId) : Sdk unit :=
  {| Buffer_from_base64 := fun s => list_byte_of_string s;
     Ed25519Keypair_fromSecretKey := fun b => inr {| secretKey := b |};
     toSuiAddress := fun _ => "0xbackend";
     EncryptedObject_parse := fun _ => inr {| eo_id := "deal-1" |};
     Date_now := fun _ => 1700000000000;
     Date_now_valid := fun _ => eq_refl;
     sealClient_encrypt := fun _ w => (inr sealed, w);
     SessionKey_create := fun _ w => (inr {| session_token := "session" |}, w);
     sealClient_fetchKeys := fun _ w => (inr tt, w);
     sealClient_decrypt := fun r w => (inr (dec_data r), w);
     walrusClient_writeBlobToUploadRelay :=
       fun _ w => (inr {| wr_blobId := "blob-1";
                          wr_certificate := {| cert_json := "{}" |} |}, w);
     walrusClient_systemState := fun w => (inr {| committee_epoch := 7 |}, w);
     walrusClient_getVerifiedBlobStatus := fun _ w => (inr "permanent", w);
     walrusClient_getBlobMetadata := fun _ w => (inr metadata, w);
     client_getObject := fun r w => (objects (go_id r), w);
     client_queryEvents := fun _ w => (inr {| events_data := events |}, w) |}.

Definition no_objects (_ : string) : Thrown + SuiObjectResponse :=
  inl (ErrorObj "network unreachable").

Definition no_metadata : BlobMetadataWithId :=
  {| metadata_V1 := {| unencoded_length := Num 0; hashes := Some [] |} |}.

Definition plain_sdk : Sdk unit := sdk no_objects [] no_metadata.

Definition cfg : Config :=
  {| app_enableServerEncryption := true;
     seal_policyObjectId := Some "0xpkg::earnout_seal_policy";
     sui_backendPrivateKey := Some "c2VjcmV0";
     walrus_maxFileSize := 4;
     walrus_storageEpochs := 5;
     earnout_packageId := Some "0xpkg";
     debug_seal := false;
     debug_walrus := false;
     debug_sui := false;
     env_NODE_ENV := Some "production" |}.

(** A Move object response with the given fields. *)
Definition object_with (fields : gmap string MoveValue) : Thrown + SuiObjectResponse :=
  inr {| data := Some {| content := Some (moveObject fields) |} |}.

End Fixture.

(** ** Sample data *)

Module Runs.

Import Fixture.

Definition seal : SealService.t := {| SealService.backendKeypair := Some keypair |}.
Definition walrus : WalrusService.t := {| WalrusService.backendKeypair := Some keypair |}.

Definition encryptionConfig : SealService.SealEncryptionConfig :=
  {| SealService.policyObjectId := "0xpkg::earnout_seal_policy";
     SealService.dealId := "deal-1" |}.

(** A configuration with server-side encryption switched off and no
    ledger package. *)
Definition bare_cfg : Config :=
  {| app_enableServerEncryption := false;
     seal_policyObjectId := None;
     sui_backendPrivateKey := None;
     walrus_maxFileSize := 4;
     walrus_storageEpochs := 5;
     earnout_packageId := None;
     debug_seal := true;
     debug_walrus := true;
     debug_sui := true;
     env_NODE_ENV := Some "development" |}.

(** A deal with one blob entry. *)
Definition deal_with (entry : Entry.t) : gmap string MoveValue :=
  {[ "buyer" := MString "0xbuyer"; "walrus_blobs" := MBlobs [entry] ]}.

(** An entry that has neither [blob_id] nor [blobId]. *)
Definition nameless_entry : Entry.t :=
  {| Entry.blob_id := None; Entry.blobId := None;
     Entry.period_id := Some "period-1"; Entry.periodId := None;
     Entry.data_type := Some "invoice"; Entry.dataType := None;
     Entry.size := Some 120;
     Entry.uploaded_at := Some 1700000000; Entry.uploadedAt := None;
     Entry.uploader := Some "0xseller"; Entry.uploaderAddress := None |}.

Definition one_second : BlobValues :=
  {| v_blob := Some "blob-1"; v_period := Some "period-1"; v_type := Some "invoice";
     v_size := Some 120; v_time := Some 1; v_uploader := Some "0xseller" |}.

(** An entry that stores values under both names: two identifiers, an
    empty [period_id] beside a [periodId], a [dataType] only, a zero
    [uploaded_at] beside an [uploadedAt], and no size or uploader. *)
Definition both_names : Entry.t :=
  {| Entry.blob_id := Some "blob-snake"; Entry.blobId := Some "blob-camel";
     Entry.period_id := Some ""; Entry.periodId := Some "period-camel";
     Entry.data_type := None; Entry.dataType := Some "invoice";
     Entry.size := None;
     Entry.uploaded_at := Some 0; Entry.uploadedAt := Some 1000;
     Entry.uploader := None; Entry.uploaderAddress := None |}.

Definition ledger (fields : gmap string MoveValue) : Sdk unit :=
  sdk (fun _ => object_with fields) [] no_metadata.

(** Five audit records created for [deal-1] and one for another deal;
    the fetch of [record-3] fails. *)
Definition audit_events : list SuiEvent :=
  [ {| audit_record_id := Some "record-1"; deal_id := Some "deal-1" |};
    {| audit_record_id := Some "record-2"; deal_id := Some "deal-1" |};
    {| audit_record_id := Some "record-x"; deal_id := Some "deal-2" |};
    {| audit_record_id := Some "record-3"; deal_id := Some "deal-1" |};
    {| audit_record_id := Some "record-4"; deal_id := Some "deal-1" |};
    {| audit_record_id := Some "record-5"; deal_id := Some "deal-1" |} ].

Definition audit_fields : gmap string MoveValue :=
  {[ "data_id" := MString "blob-1"; "deal_id" := MString "deal-1";
     "upload_timestamp" := MString "1700000000000"; "audited" := MBool true;
     "auditor" := MOption (Some ["0xauditor"]) ]}.

Definition audit_objects (recordId : string) : Thrown + SuiObjectResponse :=
  if String.eqb recordId "record-3" then inl (ErrorObj "request timed out")
  else object_with audit_fields.

Definition audit_sdk : Sdk unit := sdk audit_objects audit_events no_metadata.

(** A ledger whose world counts the object fetches made so far and whose
    fetch number [failing] (from zero) times out, whatever it asks for. *)
Definition flaky_sdk (failing : nat) (events : list SuiEvent) : Sdk nat :=
  {| Buffer_from_base64 := Buffer_from_base64 plain_sdk;
     Ed25519Keypair_fromSecretKey := Ed25519Keypair_fromSecretKey plain_sdk;
     toSuiAddress := toSuiAddress plain_sdk;
     EncryptedObject_parse := EncryptedObject_parse plain_sdk;
     Date_now := fun _ => 1700000000000;
     Date_now_valid := fun _ => eq_refl;
     sealClient_encrypt := fun _ n => (inr sealed, n);
     SessionKey_create := fun _ n => (inr {| session_token := "session" |}, n);
     sealClient_fetchKeys := fun _ n => (inr tt, n);
     sealClient_decrypt := fun r n => (inr (dec_data r), n);
     walrusClient_writeBlobToUploadRelay :=
       fun _ n => (inr {| wr_blobId := "blob-1";
                          wr_certificate := {| cert_json := "{}" |} |}, n);
     walrusClient_systemState := fun n => (inr {| committee_epoch := 7 |}, n);
     walrusClient_getVerifiedBlobStatus := fun _ n => (inr "permanent", n);
     walrusClient_getBlobMetadata := fun _ n => (inr no_metadata, n);
     client_getObject :=
       fun _ n => (if (n =? failing)%nat
                   then inl (ErrorObj "request timed out")
                   else object_with audit_fields, S n);
     client_queryEvents := fun _ n => (inr {| events_data := events |}, n) |}.

(** Metadata whose primary hash is a raw digest, and metadata whose
    primary hash bears the tag [Empty]. *)
Definition digest_metadata : BlobMetadataWithId :=
  {| metadata_V1 :=
       {| unencoded_length := Num 3;
          hashes := Some [ {| primary_hash :=
                                Some {| hash_kind := "Digest";
                                        hash_Digest := Some [x0a; xff] |} |} ] |} |}.

Definition empty_metadata : BlobMetadataWithId :=
  {| metadata_V1 :=
       {| unencoded_length := Num 3;
          hashes := Some [ {| primary_hash :=
                                Some {| hash_kind := "Empty";
                                        hash_Digest := None |} |} ] |} |}.

End Runs.

(** ** More sample data *)

Module Samples.

Import Fixture Runs.

(** The plain test double with some of its answers replaced. *)
Definition vary
    (fromSecretKey : bytes -> Thrown + Ed25519Keypair)
    (fetchKeys : FetchKeysRequest -> unit -> (Thrown + unit) * unit)
    (systemState : unit -> (Thrown + SystemState) * unit)
    (blobStatus : string -> unit -> (Thrown + string) * unit)
    (queryEvents : QueryEventsRequest -> unit -> (Thrown + EventPage) * unit)
    : Sdk unit :=
  {| Buffer_from_base64 := Buffer_from_base64 plain_sdk;
     Ed25519Keypair_fromSecretKey := fromSecretKey;
     toSuiAddress := toSuiAddress plain_sdk;
     EncryptedObject_parse := EncryptedObject_parse plain_sdk;
     Date_now := fun _ => 1700000000000;
     Date_now_valid := fun _ => eq_refl;
     sealClient_encrypt := sealClient_encrypt plain_sdk;
     SessionKey_create := SessionKey_create plain_sdk;
     sealClient_fetchKeys := fetchKeys;
     sealClient_decrypt := sealClient_decrypt plain_sdk;
     walrusClient_writeBlobToUploadRelay := walrusClient_writeBlobToUploadRelay plain_sdk;
     walrusClient_systemState := systemState;
     walrusClient_getVerifiedBlobStatus := blobStatus;
     walrusClient_getBlobMetadata := walrusClient_getBlobMetadata plain_sdk;
     client_getObject := client_getObject plain_sdk;
     client_queryEvents := queryEvents |}.

(** The SDK rejects the private key. *)
Definition rejecting_sdk : Sdk unit :=
  vary (fun _ => inl (ErrorObj "Wrong secretKey size"))
       (sealClient_fetchKeys plain_sdk) (walrusClient_systemState plain_sdk)
       (walrusClient_getVerifiedBlobStatus plain_sdk) (client_queryEvents plain_sdk).

(** The key servers refuse the key shares. *)
Definition refusing_sdk : Sdk unit :=
  vary (Ed25519Keypair_fromSecretKey plain_sdk)
       (fun _ w => (inl (ErrorObj "access denied"), w))
       (walrusClient_systemState plain_sdk)
       (walrusClient_getVerifiedBlobStatus plain_sdk) (client_queryEvents plain_sdk).

(** The storage network answers neither its system state nor a blob
    status, and the ledger no events. *)
Definition unreachable_sdk : Sdk unit :=
  vary (Ed25519Keypair_fromSecretKey plain_sdk)
       (sealClient_fetchKeys plain_sdk)
       (fun w => (inl (NonError "503"), w))
       (fun _ w => (inl (ErrorObj "blob not certified"), w))
       (fun _ w => (inl (ErrorObj "rpc unreachable"), w)).

(** A ledger that has no object at all. *)
Definition empty_ledger : Sdk unit :=
  sdk (fun _ => inr {| data := None |}) [] no_metadata.

(** An entry uploaded, by its own account, after the end of time. *)
Definition late_entry : Entry.t :=
  {| Entry.blob_id := Some "blob-2"; Entry.blobId := None;
     Entry.period_id := None; Entry.periodId := None;
     Entry.data_type := None; Entry.dataType := None;
     Entry.size := None;
     Entry.uploaded_at := Some 8640000000001; Entry.uploadedAt := None;
     Entry.uploader := None; Entry.uploaderAddress := None |}.

(** A deal object without a blob list. *)
Definition blobless_deal : gmap string MoveValue :=
  {[ "buyer" := MString "0xbuyer" ]}.

Definition initial : State unit := {| world := tt; calls := []; console := [] |}.

Definition four_octets : bytes := [x61; x62; x63; x64].

End Samples.

(** * Properties *)

(** ** Hexadecimal rendering and digests *)

Section Hex.

Lemma length_append (s1 s2 : string) :
  String.length (s1 +:+ s2) = (String.length s1 + String.length s2)%nat.
Proof. induction s1 as [|c s1 IH]; simpl; [reflexivity | now rewrite IH]. Qed.

Lemma forallb_append (p : ascii -> bool) (s1 s2 : string) :
  string_forallb p (s1 +:+ s2) = string_forallb p s1 && string_forallb p s2.
Proof.
  induction s1 as [|c s1 IH]; simpl; [reflexivity |].
  now rewrite IH, andb_assoc.
Qed.

(** One octet prints as exactly two lowercase hexadecimal digits. *)
Lemma byte_hex (b : byte) :
  let s := padStart 2 "0" (toString 16 (Byte.to_N b)) in
  String.length s = 2%nat /\ string_forallb is_lower_hex s = true.
Proof. destruct b; split; vm_compute; reflexivity. Qed.

Lemma hex_of_bytes_length (bs : bytes) :
  String.length (hex_of_bytes bs) = (2 * length bs)%nat.
Proof.
  induction bs as [|b bs IH]; [reflexivity |].
  change (hex_of_bytes (b :: bs))
    with (padStart 2 "0" (toString 16 (Byte.to_N b)) +:+ hex_of_bytes bs).
  rewrite length_append, IH, (proj1 (byte_hex b)). simpl. lia.
Qed.

Lemma hex_of_bytes_lower (bs : bytes) :
  string_forallb is_lower_hex (hex_of_bytes bs) = true.
Proof.
  induction bs as [|b bs IH]; [reflexivity |].
  change (hex_of_bytes (b :: bs))
    with (padStart 2 "0" (toString 16 (Byte.to_N b)) +:+ hex_of_bytes bs).
  now rewrite forallb_append, IH, (proj2 (byte_hex b)).
Qed.

(** A SHA-256 digest has 32 octets, whatever the message. *)
Lemma sha256_length (msg : bytes) : length (Sha256.sha256 msg) = 32%nat.
Proof. unfold Sha256.sha256. generalize (fold_left Sha256.compress
  (Sha256.blocks (Sha256.words_of_bytes (Sha256.pad (map Byte.to_N msg))))
  Sha256.initial). intros h. reflexivity. Qed.

(** The digests of the standard test messages. *)
Example sha256_empty :
  hex_of_bytes (Sha256.sha256 [])
  = "e3b0c44298fc1c149afbf4c8996fb92427ae41e4649b934ca495991b7852b855".
Proof. vm_compute. reflexivity. Qed.

Example sha256_abc :
  hex_of_bytes (Sha256.sha256 (list_byte_of_string "abc"))
  = "ba7816bf8f01cfea414140de5dae2223b00361a396177a9cb410ff61f20015ad".
Proof. vm_compute. reflexivity. Qed.

Example sha256_two_blocks :
  hex_of_bytes (Sha256.sha256 (list_byte_of_string
    "abcdbcdecdefdefgefghfghighijhijkijkljklmklmnlmnomnopnopq"))
  = "248d6a61d20638b8e5c026930c3e6039a33ce45964ff2167f6ecedd419db06c1".
Proof. vm_compute. reflexivity. Qed.

End Hex.

(** ** The monad's basic steps *)

Ltac unfold_monad :=
  unfold run, bind, try_catch, ret, throw, lift, request, when,
    console_log, console_warn, console_error, console_write in *.

(** The clock always prints: [new Date().toISOString()] cannot throw. *)
Lemma clock_prints {W} (sdk : Sdk W) (w : W) :
  Date_toISOString (Date_now sdk w) = inr (iso_string (Date_now sdk w)).
Proof. unfold Date_toISOString. now rewrite Date_now_valid. Qed.

Lemma now_iso_returns {W} (sdk : Sdk W) (st : State W) :
  now_iso sdk st = (inr (iso_string (Date_now sdk (world st))), st).
Proof. unfold now_iso. now rewrite clock_prints. Qed.

Arguments Date_toISOString : simpl never.
Arguments iso_string : simpl never.
Arguments Sha256.sha256 : simpl never.
Arguments hex_of_bytes : simpl never.
Arguments split_first : simpl never.

(** ** SealService *)

Section SealServiceProperties.
Context {W : Type} (sdk : Sdk W) (cfg : Config).

Import SealService.

(** A service built from a configuration without a private key has no
    backend keypair. *)
Lemma new_without_key :
  truthy_string (sui_backendPrivateKey cfg) = false ->
  backendKeypair (SealService.new sdk cfg) = None.
Proof. intros H. unfold SealService.new, init_backendKeypair. simpl. now rewrite H. Qed.

(** C8: [encrypt] throws at once when server-side encryption is disabled
    or no policy identifier is configured, and [decrypt] throws at once
    when server-side encryption is disabled or the service has no backend
    keypair (as is the case when no private key is configured); in each
    case no SDK request has been issued, nothing was printed and the
    world is unchanged. *)
Theorem guards_fail_before_any_request :
  (forall this plaintext encryptionConfig w,
      app_enableServerEncryption cfg = false
      \/ truthy_string (seal_policyObjectId cfg) = false ->
      run (encrypt sdk cfg this plaintext encryptionConfig) w
      = (inl (ErrorObj (if app_enableServerEncryption cfg
                        then "Seal policy object ID is not configured"
                        else "Server-side encryption is disabled")),
         {| world := w; calls := []; console := [] |}))
  /\ (forall this ciphertext dealId userAddress w,
         app_enableServerEncryption cfg = false
         \/ backendKeypair this = None ->
         run (decrypt sdk cfg this ciphertext dealId userAddress) w
         = (inl (ErrorObj (if app_enableServerEncryption cfg
                           then "Backend keypair is not configured for decryption"
                           else "Server-side decryption is disabled")),
            {| world := w; calls := []; console := [] |}))
  /\ (truthy_string (sui_backendPrivateKey cfg) = false ->
      backendKeypair (SealService.new sdk cfg) = None).
Proof.
  split; [| split].
  - intros this plaintext ec w H. unfold encrypt.
    destruct (app_enableServerEncryption cfg); simpl.
    + destruct H as [H | H]; [discriminate |]. now rewrite H.
    + reflexivity.
  - intros this ciphertext dealId userAddress w H. unfold decrypt.
    destruct (app_enableServerEncryption cfg); simpl.
    + destruct H as [H | H]; [discriminate |]. now rewrite H.
    + reflexivity.
  - apply new_without_key.
Qed.

(** C3: [verifyAccess] ignores its arguments: with [NODE_ENV] set to
    [development] it grants access with the role [buyer], otherwise it
    denies with the reason "Access verification not yet implemented"; it
    issues no SDK request in either case. *)
Theorem verifyAccess_is_unconditional
    (this : SealService.t) (dealId userAddress : string)
    (requiredRole : option UserRole) (w : W) :
  let '(result, st) := run (verifyAccess cfg this dealId userAddress requiredRole) w in
  calls st = [] /\ world st = w
  /\ (env_NODE_ENV cfg = Some "development" ->
      result = inr {| hasAccess := true; role := Some buyer; reason := None |})
  /\ (env_NODE_ENV cfg <> Some "development" ->
      result = inr {| hasAccess := false; role := None;
                      reason := Some "Access verification not yet implemented" |}).
Proof.
  unfold verifyAccess. unfold_monad.
  destruct (debug_seal cfg); simpl; case_bool_decide; simpl;
    repeat split; intros; congruence.
Qed.

Ltac c1_finish :=
  split;
  [ repeat constructor
  | split;
    [ intros; simplify_eq; simpl; intuition congruence
    | repeat split; reflexivity ] ].

(** C1: every key-fetch request [decrypt] issues carries a zero-length
    approval transaction; when the guards pass, the ciphertext parses and
    the session opens, such a request is indeed issued; and two runs that
    differ only in [userAddress] issue the same requests, end in the same
    world and produce the same outcome. *)
Theorem decrypt_sends_empty_approval
    (this : SealService.t) (ciphertext : bytes) (dealId userAddress userAddress' : string)
    (w : W) :
  let '(result, st) := run (decrypt sdk cfg this ciphertext dealId userAddress) w in
  let '(result', st') := run (decrypt sdk cfg this ciphertext dealId userAddress') w in
  Forall empty_approval (calls st)
  /\ (forall keypair blob policy sessionKey w1,
         app_enableServerEncryption cfg = true ->
         backendKeypair this = Some keypair ->
         EncryptedObject_parse sdk ciphertext = inr blob ->
         seal_policyObjectId cfg = Some policy ->
         SessionKey_create sdk {| skr_address := toSuiAddress sdk keypair;
                                  skr_packageId := split_first "::" policy;
                                  skr_ttlMin := 10;
                                  skr_signer := keypair |} w
         = (inr sessionKey, w1) ->
         In (SealFetchKeys {| fk_ids := [eo_id blob];
                              fk_txBytes := [];
                              fk_sessionKey := sessionKey;
                              fk_threshold := 2 |}) (calls st))
  /\ calls st' = calls st
  /\ world st' = world st
  /\ result' = result.
Proof.
  unfold decrypt.
  destruct (app_enableServerEncryption cfg); simpl; [| c1_finish].
  destruct (backendKeypair this) as [kp|]; simpl; [| c1_finish].
  unfold_monad.
  destruct (debug_seal cfg); simpl;
    (destruct (EncryptedObject_parse sdk ciphertext) as [e|blob]; simpl;
     [c1_finish |]);
    (destruct (seal_policyObjectId cfg) as [policy|]; simpl; [| c1_finish]);
    (destruct (SessionKey_create sdk _ w) as [[e|sk] w1] eqn:Hsk; simpl;
     [c1_finish |]);
    (destruct (sealClient_fetchKeys sdk _ w1) as [[e|[]] w2]; simpl;
     [c1_finish |]);
    (destruct (sealClient_decrypt sdk _ w2) as [[e|plain] w3]; simpl);
    rewrite ?now_iso_returns, ?clock_prints; simpl; c1_finish.
Qed.

(** C9: whenever [encrypt] succeeds, the commitment of its result is
    [sha256:] followed by exactly 64 lowercase hexadecimal characters,
    which spell the SHA-256 digest of the ciphertext of that result. *)
Theorem encrypt_commitment_format
    (this : SealService.t) (plaintext : bytes) (encryptionConfig : SealEncryptionConfig)
    (w : W) (result : SealEncryptionResult) (st : State W) :
  run (encrypt sdk cfg this plaintext encryptionConfig) w = (inr result, st) ->
  exists hashHex,
    commitment result = "sha256:" +:+ hashHex
    /\ String.length hashHex = 64%nat
    /\ string_forallb is_lower_hex hashHex = true
    /\ hashHex = hex_of_bytes (Sha256.sha256 (ciphertext result)).
Proof.
  unfold encrypt.
  destruct (app_enableServerEncryption cfg); simpl; [| discriminate].
  destruct (truthy_string (seal_policyObjectId cfg)); simpl; [| discriminate].
  unfold_monad.
  intros Hrun.
  assert (Hc : commitment result = generateCommitment (ciphertext result)).
  { destruct (debug_seal cfg); simpl in Hrun;
      (destruct (sealClient_encrypt sdk _ w) as [[e|encryptedObject] w1];
       simpl in Hrun; [discriminate |]);
      rewrite ?now_iso_returns, ?clock_prints in Hrun; simpl in Hrun;
      injection Hrun as <- _; reflexivity. }
  exists (hex_of_bytes (Sha256.sha256 (ciphertext result))).
  repeat split.
  - exact Hc.
  - rewrite hex_of_bytes_length, sha256_length. reflexivity.
  - apply hex_of_bytes_lower.
Qed.

End SealServiceProperties.

(** ** WalrusService *)

Section WalrusServiceProperties.
Context {W : Type} (sdk : Sdk W) (cfg : Config).

Import WalrusService.

(** [formatMetadata] always returns: an exception raised while the hash
    is extracted is caught inside it, and it issues no request. *)
Lemma formatMetadata_returns (metadata : BlobMetadataWithId) (st : State W) :
  exists c st',
    formatMetadata metadata st = (inr c, st')
    /\ world st' = world st /\ calls st' = calls st.
Proof.
  unfold formatMetadata. unfold_monad.
  destruct (hashes (metadata_V1 metadata)) as [[|h hs]|]; simpl;
    try (eexists _, _; repeat split; fail).
  destruct (primary_hash h) as [ph|]; simpl;
    try (eexists _, _; repeat split; fail).
  destruct (String.eqb (hash_kind ph) "Digest"); simpl;
    try (eexists _, _; repeat split; fail).
  destruct (hash_Digest ph); simpl; eexists _, _; repeat split.
Qed.

(** The commitment for a recognised raw digest. *)
Lemma formatMetadata_digest metadata digest (st : State W) :
  raw_digest_of metadata digest ->
  formatMetadata metadata st = (inr ("walrus:" +:+ hex_of_bytes digest), st).
Proof.
  intros (pair & rest & hash & Hh & Hp & Hk & Hd).
  unfold formatMetadata. unfold_monad.
  rewrite Hh. simpl. rewrite Hp, Hk, Hd. reflexivity.
Qed.

(** The sentinel for every other hash shape. *)
Lemma formatMetadata_unknown metadata (st : State W) :
  (forall digest, ~ raw_digest_of metadata digest) ->
  exists st',
    formatMetadata metadata st = (inr "walrus:unknown", st')
    /\ world st' = world st /\ calls st' = calls st.
Proof.
  intros Hno. unfold formatMetadata. unfold_monad.
  destruct (hashes (metadata_V1 metadata)) as [[|h hs]|] eqn:Hh; simpl;
    try (eexists; repeat split; fail).
  destruct (primary_hash h) as [ph|] eqn:Hp; simpl;
    try (eexists; repeat split; fail).
  destruct (String.eqb (hash_kind ph) "Digest") eqn:Hk; simpl;
    try (eexists; repeat split; fail).
  destruct (hash_Digest ph) as [digest|] eqn:Hd; simpl;
    try (eexists; repeat split; fail).
  exfalso. apply String.eqb_eq in Hk. apply (Hno digest).
  exists h, hs, ph. auto.
Qed.

Arguments formatMetadata : simpl never.

(** C10: when the three client calls of [getBlobInfo] answer, it returns
    a blob info (it does not throw, whatever the shape of the hashes)
    whose commitment is [walrus:] followed by the hexadecimal digest when
    the metadata carries a raw digest, and the literal [walrus:unknown]
    otherwise, in particular when the primary hash bears another tag. *)
Theorem getBlobInfo_commitment
    (this : WalrusService.t) (blobId : string) (w w1 w2 w3 : W)
    (status : string) (metadata : BlobMetadataWithId) (systemState : SystemState) :
  walrusClient_getVerifiedBlobStatus sdk blobId w = (inr status, w1) ->
  walrusClient_getBlobMetadata sdk blobId w1 = (inr metadata, w2) ->
  walrusClient_systemState sdk w2 = (inr systemState, w3) ->
  exists info st,
    run (getBlobInfo sdk cfg this blobId) w = (inr info, st)
    /\ (forall digest,
           raw_digest_of metadata digest ->
           info_commitment info = "walrus:" +:+ hex_of_bytes digest)
    /\ ((forall digest, ~ raw_digest_of metadata digest) ->
        info_commitment info = "walrus:unknown")
    /\ (forall pair rest hash,
           hashes (metadata_V1 metadata) = Some (pair :: rest) ->
           primary_hash pair = Some hash ->
           hash_kind hash <> "Digest" ->
           info_commitment info = "walrus:unknown").
Proof.
  intros Hs Hm Hss.
  assert (Hfmt : forall st0 : State W, exists c st',
             formatMetadata metadata st0 = (inr c, st')
             /\ world st' = world st0
             /\ (forall digest, raw_digest_of metadata digest ->
                                c = "walrus:" +:+ hex_of_bytes digest)
             /\ ((forall digest, ~ raw_digest_of metadata digest) ->
                 c = "walrus:unknown")).
  { intros st0.
    destruct (formatMetadata_returns metadata st0) as (c & st' & Hf & Hw & _).
    exists c, st'. repeat split; try assumption.
    - intros digest Hd.
      rewrite (formatMetadata_digest _ _ st0 Hd) in Hf. congruence.
    - intros Hno.
      destruct (formatMetadata_unknown _ st0 Hno) as (st'' & Hf' & _).
      congruence. }
  assert (Hgoal : exists info st,
             run (getBlobInfo sdk cfg this blobId) w = (inr info, st)
             /\ (forall digest, raw_digest_of metadata digest ->
                    info_commitment info = "walrus:" +:+ hex_of_bytes digest)
             /\ ((forall digest, ~ raw_digest_of metadata digest) ->
                 info_commitment info = "walrus:unknown")).
  { unfold getBlobInfo. unfold_monad.
    destruct (debug_walrus cfg); simpl;
      rewrite Hs; simpl; rewrite Hm; simpl; rewrite Hss; simpl;
      match goal with
      | |- context [formatMetadata metadata ?st0] =>
          destruct (Hfmt st0) as (c & st' & Hf & Hw & Hyes & Hno)
      end;
      rewrite Hf; simpl; rewrite ?now_iso_returns, ?clock_prints; simpl;
      eexists _, _; (split; [reflexivity |]); simpl; split; assumption. }
  destruct Hgoal as (info & st & Hrun & Hyes & Hno).
  exists info, st. repeat split; try assumption.
  intros pair rest hash Hh Hp Hk. apply Hno.
  intros digest (pair' & rest' & hash' & Hh' & Hp' & Hk' & _).
  congruence.
Qed.

Arguments pretty : simpl never.

(** C5 (amended): a payload strictly larger than the configured maximum
    makes [upload] throw the wrapped size error before any SDK request;
    a payload no larger than the maximum, the maximum itself included,
    passes the size check, and with a backend keypair the relay request
    for it is issued. *)
Theorem upload_size_check {BlobMetadata : Type}
    (this : WalrusService.t) (data : bytes) (metadata : BlobMetadata) (w : W) :
  let '(result, st) := run (upload sdk cfg this data metadata) w in
  (Z.of_nat (length data) > walrus_maxFileSize cfg ->
   result = inl (ErrorObj ("Failed to upload to Walrus: "
                           +:+ ("File size " +:+ pretty (Z.of_nat (length data))
                                +:+ " exceeds maximum allowed "
                                +:+ pretty (walrus_maxFileSize cfg) +:+ " bytes")))
   /\ calls st = [] /\ world st = w)
  /\ (forall keypair,
         Z.of_nat (length data) <= walrus_maxFileSize cfg ->
         backendKeypair this = Some keypair ->
         exists rest,
           calls st = WalrusWriteBlobToUploadRelay
                        {| wb_blob := data;
                           wb_deletable := true;
                           wb_epochs := walrus_storageEpochs cfg;
                           wb_signer := keypair |} :: rest).
Proof.
  unfold upload. unfold_monad.
  destruct (Z.gtb_spec (Z.of_nat (length data)) (walrus_maxFileSize cfg)) as [Hgt | Hle].
  - destruct (debug_walrus cfg); simpl;
      (split; [intros _; repeat split | intros keypair Hle; lia]).
  - destruct (backendKeypair this) as [kp|];
      [| destruct (debug_walrus cfg); simpl;
         (split; [intros Hgt; lia | intros keypair _ Hkp; discriminate])].
    destruct (debug_walrus cfg); simpl;
      (destruct (walrusClient_writeBlobToUploadRelay sdk _ w) as [[e|result] w1]; simpl;
       [split; [intros Hgt; lia | intros keypair _ Hkp; simplify_eq; eexists; reflexivity] |]);
      (destruct (walrusClient_systemState sdk w1) as [[e|systemState] w2]; simpl);
      rewrite ?now_iso_returns, ?clock_prints; simpl;
      (split; [intros Hgt; lia | intros keypair _ Hkp; simplify_eq; eexists; reflexivity]).
Qed.

End WalrusServiceProperties.

(** ** SuiService *)

Section SuiServiceProperties.
Context {W : Type} (sdk : Sdk W) (cfg : Config).

Import SuiService.

Ltac c2_finish :=
  split;
  [ intros Habsurd; discriminate Habsurd
  | split;
    [ intros ? ? _ Hanswer; first [reflexivity | discriminate Hanswer]
    | eexists; reflexivity ] ].

(** C2: [verifyDealParticipant] returns [true] for every deal and address
    when no ledger package is configured (without asking the ledger),
    returns [false] when the ledger query raises, and never throws. *)
Theorem verifyDealParticipant_open_and_closed (dealId userAddress : string) (w : W) :
  let '(result, st) := run (verifyDealParticipant sdk cfg dealId userAddress) w in
  (truthy_string (earnout_packageId cfg) = false ->
   result = inr true /\ calls st = [])
  /\ (forall e w1,
         truthy_string (earnout_packageId cfg) = true ->
         client_getObject sdk (content_request dealId) w = (inl e, w1) ->
         result = inr false)
  /\ (exists answer, result = inr answer).
Proof.
  unfold verifyDealParticipant, content_request. unfold_monad.
  destruct (truthy_string (earnout_packageId cfg)); simpl.
  - destruct (debug_sui cfg); simpl;
      (destruct (client_getObject sdk _ w) as [[e|dealObject] w1]; simpl;
       [c2_finish |]);
      (destruct (data dealObject) as [objectData|]; simpl; [| c2_finish]);
      (destruct (content objectData) as [[fields|]|]; simpl);
      c2_finish.
  - destruct (debug_sui cfg); simpl;
      (split; [intros _; split; reflexivity |]);
      (split; [discriminate | eexists; reflexivity]).
Qed.

Lemma fetch_answers_length (ids : list string) (w : W) :
  length (fetch_answers sdk ids w) = length ids.
Proof.
  revert w. induction ids as [|recordId rest IH]; intros w; simpl; [reflexivity |].
  destruct (client_getObject sdk (content_request recordId) w) as [answer w'].
  simpl. now rewrite IH.
Qed.

(** The loop returns the records collected so far followed by the
    records of the fetches that answered with an object, in order; it
    never throws. *)
Lemma fetch_auditRecords_collects (ids : list string) :
  forall (auditRecords : list DataAuditRecord) (st : State W),
  exists st',
    fetch_auditRecords sdk ids auditRecords st
    = (inr (auditRecords
            ++ omap (fun p => record_of_answer (fst p) (snd p))
                    (combine ids (fetch_answers sdk ids (world st))))%list, st').
Proof.
  induction ids as [|recordId rest IH]; intros auditRecords st; simpl.
  - exists st. unfold ret. now rewrite app_nil_r.
  - unfold_monad. unfold content_request.
    destruct (client_getObject sdk _ (world st)) as [[e|obj] w'] eqn:Hget; simpl.
    + match goal with
      | |- context [fetch_auditRecords sdk rest auditRecords ?st0] =>
          destruct (IH auditRecords st0) as (st' & ->)
      end.
      exists st'. reflexivity.
    + destruct (data obj) as [[[[fields|]|]]|]; simpl;
        match goal with
        | |- context [fetch_auditRecords sdk rest ?acc ?st0] =>
            destruct (IH acc st0) as (st' & ->)
        end;
        exists st'; simpl; rewrite <- ?app_assoc; reflexivity.
Qed.

Lemma collected_ids_all (ids : list string) (answers : list (Thrown + SuiObjectResponse)) :
  length answers = length ids ->
  (forall j answer, answers !! j = Some answer -> fetched_object answer) ->
  map id (omap (fun p => record_of_answer (fst p) (snd p)) (combine ids answers)) = ids.
Proof.
  revert answers. induction ids as [|recordId rest IH]; intros [|answer answers] Hlen Hall;
    simpl in *; try discriminate; [reflexivity |].
  destruct (Hall 0%nat answer eq_refl) as (fields & ->). simpl.
  f_equal. apply IH; [lia |].
  intros j a Hj. exact (Hall (S j) a Hj).
Qed.

Lemma collected_ids_one_failure (ids : list string)
    (answers : list (Thrown + SuiObjectResponse)) (k : nat) :
  length answers = length ids ->
  one_fetch_fails answers k ->
  map id (omap (fun p => record_of_answer (fst p) (snd p)) (combine ids answers))
  = delete k ids.
Proof.
  revert answers k.
  induction ids as [|recordId rest IH]; intros [|answer answers] k Hlen [[e He] Hothers];
    simpl in *; try discriminate.
  destruct k as [|k]; simpl in *.
  - injection He as ->. simpl.
    apply collected_ids_all; [lia |].
    intros j a Hj. exact (Hothers (S j) a (Nat.neq_succ_0 j) Hj).
  - destruct (Hothers 0%nat answer (Nat.neq_0_succ k) eq_refl) as (fields & ->). simpl.
    f_equal. apply IH; [lia |].
    split; [eauto |].
    intros j a Hjk Hj. apply (Hothers (S j) a); [lia | exact Hj].
Qed.

Arguments fetch_auditRecords : simpl never.

(** Once the event scan has answered, the query returns the records of
    the candidates whose fetch answered with an object, in candidate
    order, however many fetches raised. *)
Lemma getDealAuditRecords_collects (dealId : string) (w w0 : W) (events : EventPage) :
  truthy_string (earnout_packageId cfg) = true ->
  client_queryEvents sdk
    {| qe_MoveEventType :=
         or_empty (earnout_packageId cfg) +:+ "::earnout::DataAuditRecordCreated";
       qe_limit := 1000 |} w = (inr events, w0) ->
  let ids := auditRecordIds_of dealId (events_data events) in
  exists st,
    run (getDealAuditRecords sdk cfg dealId) w
    = (inr (omap (fun p => record_of_answer (fst p) (snd p))
                 (combine ids (fetch_answers sdk ids w0))), st).
Proof.
  intros Hpkg Hevents ids.
  unfold getDealAuditRecords. unfold_monad. rewrite Hpkg. simpl.
  destruct (debug_sui cfg); simpl; rewrite Hevents; simpl; fold ids;
    (destruct ids as [|recordId rest] eqn:Hids; [simpl; eexists; reflexivity |]);
    rewrite <- Hids; replace (length ids =? 0)%nat with false by (now rewrite Hids);
    match goal with
    | |- context [fetch_auditRecords sdk ids [] ?st0] =>
        destruct (fetch_auditRecords_collects ids [] st0) as (st' & ->)
    end;
    simpl; eexists; reflexivity.
Qed.

(** C6: when the event scan yields the candidates [ids] and, among the
    fetches of these candidates, exactly the one at position [k] raises
    while the others answer with an object, [getDealAuditRecords] returns
    the records of the other candidates in order: one record fewer than
    candidates, and no exception. *)
Theorem getDealAuditRecords_skips_failed_fetch
    (dealId : string) (w w0 : W) (events : EventPage) (k : nat) :
  truthy_string (earnout_packageId cfg) = true ->
  client_queryEvents sdk
    {| qe_MoveEventType :=
         or_empty (earnout_packageId cfg) +:+ "::earnout::DataAuditRecordCreated";
       qe_limit := 1000 |} w = (inr events, w0) ->
  one_fetch_fails (fetch_answers sdk (auditRecordIds_of dealId (events_data events)) w0) k ->
  exists records st,
    run (getDealAuditRecords sdk cfg dealId) w = (inr records, st)
    /\ map id records = delete k (auditRecordIds_of dealId (events_data events))
    /\ length records = (length (auditRecordIds_of dealId (events_data events)) - 1)%nat.
Proof.
  intros Hpkg Hevents Hone.
  destruct (getDealAuditRecords_collects dealId w w0 events Hpkg Hevents) as (st & Hrun).
  set (ids := auditRecordIds_of dealId (events_data events)) in *.
  assert (Hlen : length (fetch_answers sdk ids w0) = length ids)
    by apply fetch_answers_length.
  assert (Hk : (k < length ids)%nat).
  { destruct Hone as [[e He] _]. rewrite <- Hlen. eapply lookup_lt_Some, He. }
  assert (Hids : map id (omap (fun p => record_of_answer (fst p) (snd p))
                              (combine ids (fetch_answers sdk ids w0)))
                 = delete k ids)
    by (apply collected_ids_one_failure; assumption).
  eexists _, st. split; [exact Hrun |]. split; [exact Hids |].
  rewrite <- (length_map id), Hids, length_delete; [reflexivity |].
  apply lookup_lt_is_Some. exact Hk.
Qed.

Lemma or_string_nonempty (a b : option string) :
  or_string a b <> "" <-> truthy_string a || truthy_string b = true.
Proof.
  unfold or_string, truthy_string.
  destruct a as [s|], b as [t|]; simpl;
    try destruct (String.eqb_spec s ""); try destruct (String.eqb_spec t "");
    subst; simpl; split; intros; congruence.
Qed.

(** A reference returned by the mapping function carries the identifier
    chosen by [blob_id || blobId || '']. *)
Lemma blobReference_of_blobId (blob : Entry.t) (st st' : State W)
    (reference : OnChainBlobReference) :
  blobReference_of sdk blob st = (inr reference, st') ->
  blobId reference = or_string (Entry.blob_id blob) (Entry.blobId blob).
Proof.
  unfold blobReference_of. unfold_monad.
  destruct (truthy_number (Entry.uploaded_at blob));
    [| destruct (truthy_number (Entry.uploadedAt blob))];
    rewrite ?now_iso_returns;
    match goal with
    | |- context [Date_toISOString ?t] => destruct (Date_toISOString t)
    | _ => idtac
    end; intros H; simplify_eq; reflexivity.
Qed.

Lemma mapM_Forall2 {A B} (f : A -> M W B) (P : A -> B -> Prop) :
  (forall x st y st', f x st = (inr y, st') -> P x y) ->
  forall l st ys st', mapM f l st = (inr ys, st') -> Forall2 P l ys.
Proof.
  intros Hf. induction l as [|x l IH]; intros st ys st'; simpl; unfold_monad.
  - intros H. simplify_eq. constructor.
  - destruct (f x st) as [[e|y] st1] eqn:Hx; [discriminate |].
    destruct (mapM f l st1) as [[e|ys'] st2] eqn:Hl; [discriminate |].
    intros H. simplify_eq. constructor; eauto.
Qed.

Arguments mapM : simpl never.
Arguments blobReference_of : simpl never.

(** C4 (amended): each reference returned by [getDealBlobReferences]
    carries the [blob_id] of its ledger entry when that is non-empty,
    else the entry's [blobId] when that is non-empty, else the empty
    string; so its identifier is non-empty exactly when the entry has a
    non-empty [blob_id] or [blobId]. *)
Theorem getDealBlobReferences_identifiers
    (dealId : string) (w w1 : W) (response : SuiObjectResponse)
    (objectData : SuiObjectData) (fields : gmap string MoveValue)
    (entries : list Entry.t) (references : list OnChainBlobReference) (st : State W) :
  truthy_string (earnout_packageId cfg) = true ->
  client_getObject sdk (deal_request dealId) w = (inr response, w1) ->
  data response = Some objectData ->
  content objectData = Some (moveObject fields) ->
  fields !! "walrus_blobs" = Some (MBlobs entries) ->
  run (getDealBlobReferences sdk cfg dealId) w = (inr references, st) ->
  Forall2 (fun entry reference =>
             blobId reference = or_string (Entry.blob_id entry) (Entry.blobId entry)
             /\ (blobId reference <> ""
                 <-> truthy_string (Entry.blob_id entry)
                     || truthy_string (Entry.blobId entry) = true))
          entries references.
Proof.
  intros Hpkg Hget Hdata Hcontent Hblobs.
  unfold getDealBlobReferences, deal_request in *. unfold_monad.
  rewrite Hpkg. simpl.
  assert (Hmap : forall st0 ys st',
             mapM (blobReference_of sdk) entries st0 = (inr ys, st') ->
             Forall2 (fun entry reference =>
                        blobId reference
                        = or_string (Entry.blob_id entry) (Entry.blobId entry)
                        /\ (blobId reference <> ""
                            <-> truthy_string (Entry.blob_id entry)
                                || truthy_string (Entry.blobId entry) = true))
                     entries ys).
  { apply mapM_Forall2. intros blob st0 reference st' Hb.
    apply blobReference_of_blobId in Hb. rewrite Hb.
    split; [reflexivity | apply or_string_nonempty]. }
  destruct (debug_sui cfg); simpl; rewrite Hget; simpl;
    rewrite Hdata, Hcontent, Hblobs;
    match goal with
    | |- context [mapM (blobReference_of sdk) entries ?st0] =>
        destruct (mapM (blobReference_of sdk) entries st0) as [[e|ys] st'] eqn:Hrun
    end; simpl; intros H; simplify_eq; eauto.
Qed.

End SuiServiceProperties.

(** ** The two naming conventions of a blob entry *)

Section NamingConventions.
Context {W : Type} (sdk1 sdk2 : Sdk W) (cfg : Config).
Hypothesis same_clock : forall w, Date_now sdk1 w = Date_now sdk2 w.

Import SuiService.

Lemma or_string_either (a : option string) : or_string a None = or_string None a.
Proof. destruct a as [s|]; simpl; [destruct (String.eqb_spec s ""); congruence | reflexivity]. Qed.

(** The mapping function sends the snake_case entry (time in seconds)
    and the camelCase entry (time in milliseconds) to the same
    reference. *)
Lemma blobReference_of_conventions (v : BlobValues) (st : State W) :
  blobReference_of sdk1 (snake_entry v) st
  = blobReference_of sdk2 (camel_entry (in_milliseconds v)) st.
Proof.
  unfold blobReference_of, snake_entry, camel_entry, in_milliseconds, bind. simpl.
  rewrite !or_string_either.
  destruct (v_time v) as [t|]; simpl.
  - replace (t * 1000 =? 0) with (t =? 0)
      by (destruct (Z.eqb_spec t 0), (Z.eqb_spec (t * 1000) 0); lia).
    destruct (t =? 0); simpl;
      [unfold now_iso; now rewrite same_clock | reflexivity].
  - unfold now_iso. now rewrite same_clock.
Qed.

Lemma mapM_conventions (values : list BlobValues) (st : State W) :
  mapM (blobReference_of sdk1) (map snake_entry values) st
  = mapM (blobReference_of sdk2) (map (fun v => camel_entry (in_milliseconds v)) values) st.
Proof.
  revert st. induction values as [|v values IH]; intros st; [reflexivity |].
  cbn [map]. unfold mapM; fold (@mapM W). unfold bind.
  rewrite blobReference_of_conventions.
  destruct (blobReference_of sdk2 _ st) as [[e|y] st1]; [reflexivity |].
  now rewrite IH.
Qed.

(** The choices of the mapping function, property by property. *)
Lemma or_string_prefers (a b : option string) : prefers_snake_case a b (or_string a b).
Proof.
  unfold prefers_snake_case, present_string. split.
  - intros s [-> Hs]. simpl. destruct (String.eqb_spec s ""); [contradiction | reflexivity].
  - intros Hsnake.
    assert (Ha : a = None \/ a = Some "").
    { destruct a as [s|]; [| now left].
      destruct (String.eqb_spec s ""); [subst; now right |].
      exfalso. apply (Hsnake s). now split. }
    split.
    + intros c [-> Hc]. destruct Ha as [-> | ->]; reflexivity.
    + intros Hcamel.
      assert (Hb : or_string None b = "").
      { destruct b as [t|]; [| reflexivity]. simpl.
        destruct (String.eqb_spec t ""); [assumption |].
        exfalso. apply (Hcamel t). now split. }
      destruct Ha as [-> | ->]; exact Hb.
Qed.

Lemma or_zero_present (a : option Z) : number_or_zero a (or_zero a).
Proof.
  unfold number_or_zero, present_number. split.
  - now intros n [-> _].
  - intros Hnone. destruct a as [n|]; [| reflexivity]. simpl.
    destruct (Z.eq_dec n 0); [assumption |].
    exfalso. apply (Hnone n). now split.
Qed.

Lemma truthy_number_present (a : option Z) (n : Z) :
  present_number a n -> truthy_number a = true /\ or_zero a = n.
Proof.
  intros [-> Hn]. simpl. split; [| reflexivity].
  destruct (Z.eqb_spec n 0); [contradiction | reflexivity].
Qed.

Lemma truthy_number_absent (a : option Z) :
  (forall n, ~ present_number a n) -> truthy_number a = false.
Proof.
  intros Hnone. destruct a as [n|]; [| reflexivity]. simpl.
  destruct (Z.eqb_spec n 0); [reflexivity |].
  exfalso. apply (Hnone n). now split.
Qed.

(** The upload time the mapping function prints. *)
Lemma upload_time_prefers (sdk : Sdk W) (blob : Entry.t) (st st' : State W)
    (printed : string) :
  (if truthy_number (Entry.uploaded_at blob) then
     lift (Date_toISOString (or_zero (Entry.uploaded_at blob) * 1000))
   else if truthy_number (Entry.uploadedAt blob) then
     lift (Date_toISOString (or_zero (Entry.uploadedAt blob)))
   else now_iso sdk) st = (inr printed, st') ->
  st' = st
  /\ prefers_seconds (Date_now sdk (world st)) (Entry.uploaded_at blob)
                     (Entry.uploadedAt blob) printed.
Proof.
  unfold prefers_seconds, lift.
  destruct (truthy_number (Entry.uploaded_at blob)) eqn:Hsnake.
  - destruct (Date_toISOString (or_zero (Entry.uploaded_at blob) * 1000)) as [e|out]
      eqn:Hprinted; intros Hrun; simplify_eq.
    split; [reflexivity |]. split.
    + intros t Ht. apply truthy_number_present in Ht as [_ <-]. exact Hprinted.
    + intros Hnone. apply truthy_number_absent in Hnone. congruence.
  - destruct (truthy_number (Entry.uploadedAt blob)) eqn:Hcamel.
    + destruct (Date_toISOString (or_zero (Entry.uploadedAt blob))) as [e|out]
        eqn:Hprinted; intros Hrun; simplify_eq.
      split; [reflexivity |]. split.
      * intros t Ht. apply truthy_number_present in Ht as [Ht _]. congruence.
      * intros _. split.
        -- intros t Ht. apply truthy_number_present in Ht as [_ <-]. exact Hprinted.
        -- intros Hnone. apply truthy_number_absent in Hnone. congruence.
    + rewrite now_iso_returns. intros Hrun. simplify_eq.
      split; [reflexivity |]. split.
      * intros t Ht. apply truthy_number_present in Ht as [Ht _]. congruence.
      * intros _. split.
        -- intros t Ht. apply truthy_number_present in Ht as [Ht _]. congruence.
        -- intros _. apply clock_prints.
Qed.

(** A reference the mapping function returns is the normal form of its
    entry, and the function leaves the state as it was. *)
Lemma blobReference_of_normalised (sdk : Sdk W) (blob : Entry.t) (st st' : State W)
    (reference : OnChainBlobReference) :
  blobReference_of sdk blob st = (inr reference, st') ->
  st' = st /\ normalised sdk (world st) blob reference.
Proof.
  unfold blobReference_of, bind, ret.
  match goal with
  | |- context [(if ?c then ?a else ?b) st] =>
      destruct ((if c then a else b) st) as [[e|printed] st1] eqn:Htime
  end; [discriminate |].
  apply upload_time_prefers in Htime as [-> Htime].
  intros Hrun. simplify_eq. split; [reflexivity |].
  unfold normalised. cbn [blobId periodId dataType size uploadedAt uploaderAddress].
  split; [apply or_string_prefers |].
  split; [apply or_string_prefers |].
  split; [apply or_string_prefers |].
  split; [apply or_zero_present |].
  split; [exact Htime | apply or_string_prefers].
Qed.

Lemma mapM_normalised (sdk : Sdk W) (entries : list Entry.t) :
  forall (st : State W) (references : list OnChainBlobReference) (st' : State W),
    mapM (blobReference_of sdk) entries st = (inr references, st') ->
    Forall2 (normalised sdk (world st)) entries references.
Proof.
  induction entries as [|entry entries IH]; intros st references st'.
  - unfold mapM. unfold_monad. intros H. simplify_eq. constructor.
  - unfold mapM; fold (@mapM W). unfold_monad.
    destruct (blobReference_of sdk entry st) as [[e|reference] st1] eqn:Hentry;
      [discriminate |].
    apply blobReference_of_normalised in Hentry as [-> Hentry].
    destruct (mapM (blobReference_of sdk) entries st) as [[e|rest] st2] eqn:Hrest;
      [discriminate |].
    intros H. simplify_eq. constructor; [exact Hentry | eapply IH; exact Hrest].
Qed.

(** C7 (amended): a deal whose entries store their values under the
    snake_case names, with upload times in seconds, and a deal whose
    entries store the same values under the camelCase names, with the
    upload times in milliseconds, are normalised by
    [getDealBlobReferences] to the same outcome.  And for the entries of
    any deal, whatever names they use, each returned reference is the
    normal form of its entry: every property with two names is taken from
    the snake_case name when that is present (a non-empty string, a
    non-zero time), from the camelCase name otherwise, and is the default
    (the empty string, the current time) when neither is; the size is the
    stored size or zero. *)
Theorem getDealBlobReferences_conventions
    (dealId : string) (w w1 : W) (fields1 fields2 : gmap string MoveValue)
    (values : list BlobValues) :
  client_getObject sdk1 (deal_request dealId) w
  = (inr {| data := Some {| content := Some (moveObject fields1) |} |}, w1) ->
  client_getObject sdk2 (deal_request dealId) w
  = (inr {| data := Some {| content := Some (moveObject fields2) |} |}, w1) ->
  fields1 !! "walrus_blobs" = Some (MBlobs (map snake_entry values)) ->
  fields2 !! "walrus_blobs"
  = Some (MBlobs (map (fun v => camel_entry (in_milliseconds v)) values)) ->
  run (getDealBlobReferences sdk1 cfg dealId) w
  = run (getDealBlobReferences sdk2 cfg dealId) w
  /\ forall (sdk : Sdk W) (deal : string) (w0 w2 : W) (fields : gmap string MoveValue)
            (entries : list Entry.t) (references : list OnChainBlobReference)
            (st : State W),
      truthy_string (earnout_packageId cfg) = true ->
      client_getObject sdk (deal_request deal) w0
      = (inr {| data := Some {| content := Some (moveObject fields) |} |}, w2) ->
      fields !! "walrus_blobs" = Some (MBlobs entries) ->
      run (getDealBlobReferences sdk cfg deal) w0 = (inr references, st) ->
      Forall2 (normalised sdk w2) entries references.
Proof.
  intros Hget1 Hget2 Hblobs1 Hblobs2. split.
  - unfold getDealBlobReferences, deal_request in *. unfold_monad.
    destruct (truthy_string (earnout_packageId cfg)); simpl;
      [| destruct (debug_sui cfg); reflexivity].
    destruct (debug_sui cfg); simpl; rewrite Hget1, Hget2; simpl;
      rewrite Hblobs1, Hblobs2, mapM_conventions; reflexivity.
  - clear. intros sdk deal w0 w2 fields entries references st Hpkg Hget Hblobs.
    unfold getDealBlobReferences, deal_request in *. unfold_monad.
    rewrite Hpkg. simpl.
    destruct (debug_sui cfg); simpl; rewrite Hget; simpl; rewrite Hblobs;
      match goal with
      | |- context [mapM (blobReference_of sdk) entries ?st0] =>
          destruct (mapM (blobReference_of sdk) entries st0) as [[e|ys] st'] eqn:Hrun
      end; simpl; intros H; simplify_eq;
      apply mapM_normalised in Hrun; exact Hrun.
Qed.

End NamingConventions.

(** ** The properties on concrete runs *)

Section ConcreteRuns.

Import Fixture Runs.

(** With encryption switched off [encrypt] throws at once, and without a
    backend keypair [decrypt] throws at once. *)
Lemma guards_fail_before_any_request_witness :
  run (SealService.encrypt plain_sdk bare_cfg seal [x61] encryptionConfig) tt
  = (inl (ErrorObj "Server-side encryption is disabled"),
     {| world := tt; calls := []; console := [] |})
  /\ run (SealService.decrypt plain_sdk cfg (SealService.new plain_sdk bare_cfg)
                              sealed "deal-1" "0xbuyer") tt
     = (inl (ErrorObj "Backend keypair is not configured for decryption"),
        {| world := tt; calls := []; console := [] |}).
Proof.
  split.
  - apply (proj1 (guards_fail_before_any_request plain_sdk bare_cfg)).
    left. reflexivity.
  - apply (proj1 (proj2 (guards_fail_before_any_request plain_sdk cfg))).
    right. reflexivity.
Defined.

(** In development a stranger asking for the auditor role is granted
    access as buyer; in production the buyer is denied. *)
Lemma verifyAccess_is_unconditional_witness :
  fst (run (SealService.verifyAccess bare_cfg seal "deal-1" "0xstranger"
                                     (Some SealService.auditor)) tt)
  = inr {| SealService.hasAccess := true;
           SealService.role := Some SealService.buyer;
           SealService.reason := None |}
  /\ fst (run (SealService.verifyAccess cfg seal "deal-1" "0xbuyer" None) tt)
     = inr {| SealService.hasAccess := false;
              SealService.role := None;
              SealService.reason := Some "Access verification not yet implemented" |}.
Proof.
  split.
  - pose proof (verifyAccess_is_unconditional bare_cfg seal "deal-1" "0xstranger"
                  (Some SealService.auditor) tt) as H.
    vm_compute in H. apply H. reflexivity.
  - pose proof (verifyAccess_is_unconditional cfg seal "deal-1" "0xbuyer" None tt) as H.
    vm_compute in H. apply H. discriminate.
Defined.

(** A decryption on behalf of the buyer sends the key servers an empty
    approval transaction, and so does one on behalf of a stranger. *)
Lemma decrypt_sends_empty_approval_witness :
  In (SealFetchKeys {| fk_ids := ["deal-1"];
                       fk_txBytes := [];
                       fk_sessionKey := {| session_token := "session" |};
                       fk_threshold := 2 |})
     (calls (snd (run (SealService.decrypt plain_sdk cfg seal sealed
                                           "deal-1" "0xbuyer") tt)))
  /\ calls (snd (run (SealService.decrypt plain_sdk cfg seal sealed
                                          "deal-1" "0xstranger") tt))
     = calls (snd (run (SealService.decrypt plain_sdk cfg seal sealed
                                            "deal-1" "0xbuyer") tt)).
Proof.
  pose proof (decrypt_sends_empty_approval plain_sdk cfg seal sealed
                "deal-1" "0xbuyer" "0xstranger" tt) as H.
  hnf in H. destruct H as (_ & Hsent & Hsame & _).
  split.
  - apply (Hsent keypair {| eo_id := "deal-1" |} "0xpkg::earnout_seal_policy"
                 {| session_token := "session" |} tt); reflexivity.
  - exact Hsame.
Defined.

(** The commitment of a concrete encryption. *)
Lemma encrypt_commitment_format_witness :
  exists result st,
    run (SealService.encrypt plain_sdk cfg seal [x61] encryptionConfig) tt
    = (inr result, st)
    /\ exists hashHex,
         SealService.commitment result = "sha256:" +:+ hashHex
         /\ String.length hashHex = 64%nat
         /\ string_forallb is_lower_hex hashHex = true
         /\ hashHex = hex_of_bytes (Sha256.sha256 (SealService.ciphertext result)).
Proof.
  eexists _, _. split.
  - vm_compute. reflexivity.
  - eapply (encrypt_commitment_format plain_sdk cfg seal [x61] encryptionConfig tt).
    vm_compute. reflexivity.
Defined.

(** Without a ledger package every address is a participant; with one
    and an unreachable ledger nobody is, and nothing is thrown. *)
Lemma verifyDealParticipant_open_and_closed_witness :
  fst (run (SuiService.verifyDealParticipant plain_sdk bare_cfg "deal-1" "not an address") tt)
  = inr true
  /\ fst (run (SuiService.verifyDealParticipant plain_sdk cfg "deal-1" "0xbuyer") tt)
     = inr false.
Proof.
  split.
  - pose proof (verifyDealParticipant_open_and_closed plain_sdk bare_cfg
                  "deal-1" "not an address" tt) as H.
    hnf in H. apply H. reflexivity.
  - pose proof (verifyDealParticipant_open_and_closed plain_sdk cfg
                  "deal-1" "0xbuyer" tt) as H.
    hnf in H. destruct H as (_ & Hclosed & _).
    apply (Hclosed (ErrorObj "network unreachable") tt); reflexivity.
Defined.

(** C4, counterexample: an entry with neither [blob_id] nor [blobId] is
    returned as a reference whose identifier is the empty string. *)
Lemma missing_identifier_becomes_empty :
  exists reference st,
    run (SuiService.getDealBlobReferences (ledger (deal_with nameless_entry))
                                          cfg "deal-1") tt
    = (inr [reference], st)
    /\ Entry.blob_id nameless_entry = None
    /\ Entry.blobId nameless_entry = None
    /\ SuiService.blobId reference = "".
Proof. eexists _, _. split; [vm_compute; reflexivity | repeat split]. Qed.

(** The identifier of a returned reference on a concrete deal. *)
Lemma getDealBlobReferences_identifiers_witness :
  exists references st,
    run (SuiService.getDealBlobReferences (ledger (deal_with (snake_entry one_second)))
                                          cfg "deal-1") tt
    = (inr references, st)
    /\ Forall2 (fun entry reference =>
                  SuiService.blobId reference
                  = or_string (Entry.blob_id entry) (Entry.blobId entry)
                  /\ (SuiService.blobId reference <> ""
                      <-> truthy_string (Entry.blob_id entry)
                          || truthy_string (Entry.blobId entry) = true))
               [snake_entry one_second] references.
Proof.
  eexists _, _. split.
  - vm_compute. reflexivity.
  - eapply (getDealBlobReferences_identifiers
              (ledger (deal_with (snake_entry one_second))) cfg "deal-1" tt tt
              _ _ (deal_with (snake_entry one_second)));
      [reflexivity | reflexivity | reflexivity | reflexivity
      | vm_compute; reflexivity | vm_compute; reflexivity].
Defined.

(** C5, counterexample: a payload of exactly the maximum size is not
    rejected; the relay request for it is issued and the upload
    succeeds. *)
Lemma upload_at_maximum_reaches_relay :
  Z.of_nat (length [x61; x62; x63; x64]) >= walrus_maxFileSize cfg
  /\ exists result,
       run (WalrusService.upload plain_sdk cfg walrus [x61; x62; x63; x64] tt) tt
       = (inr result,
          {| world := tt;
             calls := [WalrusWriteBlobToUploadRelay
                         {| wb_blob := [x61; x62; x63; x64];
                            wb_deletable := true;
                            wb_epochs := 5;
                            wb_signer := keypair |};
                       WalrusSystemState];
             console := [] |}).
Proof. split; [vm_compute; discriminate | eexists; vm_compute; reflexivity]. Qed.

(** A payload of five octets against a maximum of four is rejected
    before any request; one of four octets reaches the relay. *)
Lemma upload_size_check_witness :
  (fst (run (WalrusService.upload plain_sdk cfg walrus [x61; x62; x63; x64; x65] tt) tt)
   = inl (ErrorObj
            "Failed to upload to Walrus: File size 5 exceeds maximum allowed 4 bytes")
   /\ calls (snd (run (WalrusService.upload plain_sdk cfg walrus
                                            [x61; x62; x63; x64; x65] tt) tt)) = [])
  /\ exists rest,
       calls (snd (run (WalrusService.upload plain_sdk cfg walrus
                                             [x61; x62; x63; x64] tt) tt))
       = WalrusWriteBlobToUploadRelay
           {| wb_blob := [x61; x62; x63; x64];
              wb_deletable := true;
              wb_epochs := 5;
              wb_signer := keypair |} :: rest.
Proof.
  split.
  - pose proof (upload_size_check plain_sdk cfg walrus [x61; x62; x63; x64; x65] tt tt) as H.
    hnf in H. destruct H as [Hover _].
    destruct Hover as (Hresult & Hcalls & _); [vm_compute; reflexivity |].
    split; [exact Hresult | exact Hcalls].
  - pose proof (upload_size_check plain_sdk cfg walrus [x61; x62; x63; x64] tt tt) as H.
    hnf in H. destruct H as [_ Hwithin].
    apply (Hwithin keypair); [vm_compute; discriminate | reflexivity].
Defined.

(** Five candidates, the fetch of the third fails: four records. *)
Lemma five_candidates_one_failure :
  exists records st,
    run (SuiService.getDealAuditRecords audit_sdk cfg "deal-1") tt = (inr records, st)
    /\ map SuiService.id records = ["record-1"; "record-2"; "record-4"; "record-5"]
    /\ length records = 4%nat.
Proof.
  apply (getDealAuditRecords_skips_failed_fetch audit_sdk cfg "deal-1" tt tt
           {| events_data := audit_events |} 2).
  - reflexivity.
  - reflexivity.
  - split.
    + exists (ErrorObj "request timed out"). reflexivity.
    + intros j answer Hj Hanswer.
      do 5 (destruct j as [|j]; [try congruence; injection Hanswer as <-;
                                 exists audit_fields; reflexivity |]).
      discriminate Hanswer.
Defined.

(** The failure is one of a fetch, not of an identifier: when the same
    record is announced three times and the second fetch times out, the
    two other fetches still contribute their records. *)
Example repeated_candidate_one_failure :
  exists records st,
    run (SuiService.getDealAuditRecords
           (flaky_sdk 1 [ {| audit_record_id := Some "record-1"; deal_id := Some "deal-1" |};
                          {| audit_record_id := Some "record-1"; deal_id := Some "deal-1" |};
                          {| audit_record_id := Some "record-1"; deal_id := Some "deal-1" |} ])
           cfg "deal-1") 0%nat
    = (inr records, st)
    /\ map SuiService.id records = ["record-1"; "record-1"]
    /\ world st = 3%nat.
Proof. eexists _, _. split; [vm_compute; reflexivity | split; reflexivity]. Qed.

(** C7, counterexample: the same time value [1] stored as [uploaded_at]
    and as [uploadedAt] is normalised to two different upload times. *)
Lemma same_time_value_differs :
  exists snake camel st1 st2,
    run (SuiService.getDealBlobReferences (ledger (deal_with (snake_entry one_second)))
                                          cfg "deal-1") tt
    = (inr [snake], st1)
    /\ run (SuiService.getDealBlobReferences (ledger (deal_with (camel_entry one_second)))
                                             cfg "deal-1") tt
       = (inr [camel], st2)
    /\ SuiService.uploadedAt snake = "1970-01-01T00:00:01.000Z"
    /\ SuiService.uploadedAt camel = "1970-01-01T00:00:00.001Z"
    /\ snake <> camel.
Proof.
  eexists _, _, _, _.
  split; [vm_compute; reflexivity |].
  split; [vm_compute; reflexivity |].
  repeat split. discriminate.
Qed.

(** The snake_case entry with one second and the camelCase entry with a
    thousand milliseconds are normalised alike; and an entry that uses
    both names is returned with its snake_case identifier, the camelCase
    period beside an empty [period_id], the camelCase upload time beside
    a zero [uploaded_at], and the defaults for what it lacks. *)
Lemma getDealBlobReferences_conventions_witness :
  run (SuiService.getDealBlobReferences (ledger (deal_with (snake_entry one_second)))
                                        cfg "deal-1") tt
  = run (SuiService.getDealBlobReferences
           (ledger (deal_with (camel_entry (in_milliseconds one_second))))
           cfg "deal-1") tt
  /\ exists reference st,
      run (SuiService.getDealBlobReferences (ledger (deal_with both_names)) cfg "deal-2") tt
      = (inr [reference], st)
      /\ normalised (ledger (deal_with both_names)) tt both_names reference
      /\ reference
         = {| SuiService.blobId := "blob-snake";
              SuiService.periodId := "period-camel";
              SuiService.dataType := "invoice";
              SuiService.size := 0;
              SuiService.uploadedAt := "1970-01-01T00:00:01.000Z";
              SuiService.uploaderAddress := "" |}.
Proof.
  destruct (getDealBlobReferences_conventions
              (ledger (deal_with (snake_entry one_second)))
              (ledger (deal_with (camel_entry (in_milliseconds one_second))))
              cfg (fun _ => eq_refl) "deal-1" tt tt
              (deal_with (snake_entry one_second))
              (deal_with (camel_entry (in_milliseconds one_second)))
              [one_second] eq_refl eq_refl eq_refl eq_refl)
    as [Hsame Hnormal].
  split; [exact Hsame |].
  eexists _, _. split; [vm_compute; reflexivity |].
  split; [| reflexivity].
  eapply proj1, Forall2_cons_1.
  eapply (Hnormal (ledger (deal_with both_names)) "deal-2" tt tt (deal_with both_names)
                  [both_names]);
    [reflexivity | reflexivity | reflexivity | vm_compute; reflexivity].
Defined.

(** A raw digest is printed in hexadecimal; the tag [Empty] yields the
    sentinel. *)
Lemma getBlobInfo_commitment_witness :
  (exists info st,
      run (WalrusService.getBlobInfo (sdk no_objects [] digest_metadata) cfg walrus
                                     "blob-1") tt = (inr info, st)
      /\ WalrusService.info_commitment info = "walrus:0aff")
  /\ (exists info st,
         run (WalrusService.getBlobInfo (sdk no_objects [] empty_metadata) cfg walrus
                                        "blob-1") tt = (inr info, st)
         /\ WalrusService.info_commitment info = "walrus:unknown").
Proof.
  split.
  - destruct (getBlobInfo_commitment (sdk no_objects [] digest_metadata) cfg walrus
                "blob-1" tt tt tt tt "permanent" digest_metadata
                {| committee_epoch := 7 |} eq_refl eq_refl eq_refl)
      as (info & st & Hrun & Hdigest & _).
    exists info, st. split; [exact Hrun |].
    apply (Hdigest [x0a; xff]).
    eexists _, _, _. repeat split.
  - destruct (getBlobInfo_commitment (sdk no_objects [] empty_metadata) cfg walrus
                "blob-1" tt tt tt tt "permanent" empty_metadata
                {| committee_epoch := 7 |} eq_refl eq_refl eq_refl)
      as (info & st & Hrun & _ & _ & Htag).
    exists info, st. split; [exact Hrun |].
    eapply Htag; [reflexivity | reflexivity | discriminate].
Defined.

End ConcreteRuns.

(** * Further properties of the services *)

(** ** Ledger queries *)

Section LedgerQueries.
Context {W : Type} (sdk : Sdk W) (cfg : Config).

Import SuiService SuiLookups.

Lemma strict_eq_spec (value : option MoveValue) (address : string) :
  strict_eq value address = true <-> value = Some (MString address).
Proof.
  unfold strict_eq. destruct value as [[s| | | |]|]; try (split; congruence).
  destruct (String.eqb_spec s address); split; congruence.
Qed.

(** X1: with a ledger package configured and the deal found as a Move
    object, [verifyDealParticipant] answers [true] exactly when the
    address is the string stored in the [buyer], [seller] or [auditor]
    field, and it has asked the ledger once, for that deal. *)
Theorem verifyDealParticipant_decides_membership
    (dealId userAddress : string) (w w1 : W) (fields : gmap string MoveValue) :
  truthy_string (earnout_packageId cfg) = true ->
  client_getObject sdk (content_request dealId) w
  = (inr {| data := Some {| content := Some (moveObject fields) |} |}, w1) ->
  exists answer st,
    run (verifyDealParticipant sdk cfg dealId userAddress) w = (inr answer, st)
    /\ (answer = true
        <-> fields !! "buyer" = Some (MString userAddress)
            \/ fields !! "seller" = Some (MString userAddress)
            \/ fields !! "auditor" = Some (MString userAddress))
    /\ calls st = [SuiGetObject (content_request dealId)]
    /\ world st = w1.
Proof.
  intros Hpkg Hget. unfold verifyDealParticipant, content_request in *.
  unfold_monad. rewrite Hpkg. simpl.
  assert (Hdecide :
            strict_eq (fields !! "buyer") userAddress
            || strict_eq (fields !! "seller") userAddress
            || strict_eq (fields !! "auditor") userAddress = true
            <-> fields !! "buyer" = Some (MString userAddress)
                \/ fields !! "seller" = Some (MString userAddress)
                \/ fields !! "auditor" = Some (MString userAddress)).
  { rewrite !orb_true_iff, !strict_eq_spec. tauto. }
  destruct (debug_sui cfg); simpl; rewrite Hget; simpl;
    eexists _, _; (split; [reflexivity |]); simpl; repeat split;
    apply Hdecide.
Qed.

(** X2: with a ledger package configured, a deal the ledger does not
    have, or one that is no Move object, makes [verifyDealParticipant]
    answer [false] for every address. *)
Theorem verifyDealParticipant_unknown_deal
    (dealId userAddress : string) (w w1 : W) (response : SuiObjectResponse) :
  truthy_string (earnout_packageId cfg) = true ->
  client_getObject sdk (content_request dealId) w = (inr response, w1) ->
  (forall fields, data response <> Some {| content := Some (moveObject fields) |}) ->
  fst (run (verifyDealParticipant sdk cfg dealId userAddress) w) = inr false.
Proof.
  intros Hpkg Hget Hno. unfold verifyDealParticipant, content_request in *.
  unfold_monad. rewrite Hpkg. simpl.
  destruct (debug_sui cfg); simpl; rewrite Hget; simpl;
    (destruct response as [[[[[fields|]|]]|]]; simpl; try reflexivity;
     exfalso; apply (Hno fields); reflexivity).
Qed.

(** The fetch loop asks for every candidate once, in order, whatever
    the answers are. *)
Lemma fetch_auditRecords_requests (ids : list string) :
  forall (auditRecords : list DataAuditRecord) (st : State W),
    calls (snd (fetch_auditRecords sdk ids auditRecords st))
    = (calls st ++ map (fun recordId => SuiGetObject (content_request recordId)) ids)%list.
Proof.
  induction ids as [|recordId rest IH]; intros auditRecords st.
  - unfold fetch_auditRecords, ret. simpl. now rewrite app_nil_r.
  - unfold fetch_auditRecords; fold (@fetch_auditRecords W sdk).
    unfold_monad. unfold content_request.
    destruct (client_getObject sdk _ (world st)) as [[e|obj] w'] eqn:Hget; simpl.
    + rewrite IH. simpl. now rewrite <- app_assoc.
    + destruct (data obj) as [[[[fields|]|]]|]; simpl;
        rewrite IH; simpl; now rewrite <- app_assoc.
Qed.

(** X3: once the event scan has answered, [getDealAuditRecords] has made
    the event query followed by exactly one object fetch per candidate
    of this deal, in event order - none for the events of other deals,
    and none is skipped or repeated after a failed fetch. *)
Theorem getDealAuditRecords_requests (dealId : string) (w w0 : W) (events : EventPage) :
  truthy_string (earnout_packageId cfg) = true ->
  client_queryEvents sdk
    {| qe_MoveEventType :=
         or_empty (earnout_packageId cfg) +:+ "::earnout::DataAuditRecordCreated";
       qe_limit := 1000 |} w = (inr events, w0) ->
  calls (snd (run (getDealAuditRecords sdk cfg dealId) w))
  = SuiQueryEvents
      {| qe_MoveEventType :=
           or_empty (earnout_packageId cfg) +:+ "::earnout::DataAuditRecordCreated";
         qe_limit := 1000 |}
    :: map (fun recordId => SuiGetObject (content_request recordId))
           (auditRecordIds_of dealId (events_data events)).
Proof.
  intros Hpkg Hevents.
  unfold getDealAuditRecords. unfold_monad. rewrite Hpkg. simpl.
  destruct (debug_sui cfg); simpl; rewrite Hevents; simpl;
    generalize (auditRecordIds_of dealId (events_data events)); intros ids;
    (destruct ids as [|recordId rest]; [reflexivity |]);
    cbn [length Nat.eqb];
    match goal with
    | |- context [fetch_auditRecords sdk ?l [] ?st0] =>
        pose proof (fetch_auditRecords_requests l [] st0) as Hcalls;
        destruct (fetch_auditRecords_collects sdk l [] st0) as (st' & Hloop)
    end;
    rewrite Hloop in Hcalls |- *; simpl in *; exact Hcalls.
Qed.

Lemma collected_ids_sublist (ids : list string)
    (answers : list (Thrown + SuiObjectResponse)) :
  sublist (map id (omap (fun p => record_of_answer (fst p) (snd p)) (combine ids answers)))
          ids.
Proof.
  revert answers. induction ids as [|recordId rest IH]; intros [|answer answers];
    simpl; try apply sublist_nil_l.
  destruct (record_of_answer recordId answer) as [record|] eqn:Hrecord; simpl.
  - assert (id record = recordId) as ->.
    { unfold record_of_answer in Hrecord.
      destruct answer as [e|[[[[[fields|]|]]|]]]; simpl in Hrecord;
        try discriminate; now injection Hrecord as <-. }
    apply sublist_skip, IH.
  - apply sublist_cons, IH.
Qed.

(** X4: whatever the fetches answer, the records [getDealAuditRecords]
    returns carry, in order, identifiers taken from the candidates of
    this deal, each candidate at most once; so there are never more
    records than candidates. *)
Theorem getDealAuditRecords_sublist
    (dealId : string) (w w0 : W) (events : EventPage) :
  truthy_string (earnout_packageId cfg) = true ->
  client_queryEvents sdk
    {| qe_MoveEventType :=
         or_empty (earnout_packageId cfg) +:+ "::earnout::DataAuditRecordCreated";
       qe_limit := 1000 |} w = (inr events, w0) ->
  exists records st,
    run (getDealAuditRecords sdk cfg dealId) w = (inr records, st)
    /\ sublist (map id records) (auditRecordIds_of dealId (events_data events))
    /\ (length records <= length (auditRecordIds_of dealId (events_data events)))%nat.
Proof.
  intros Hpkg Hevents.
  destruct (getDealAuditRecords_collects sdk cfg dealId w w0 events Hpkg Hevents)
    as (st & Hrun).
  eexists _, st. split; [exact Hrun |].
  pose proof (collected_ids_sublist (auditRecordIds_of dealId (events_data events))
                (fetch_answers sdk (auditRecordIds_of dealId (events_data events)) w0))
    as Hsub.
  split; [exact Hsub |].
  apply sublist_length in Hsub. now rewrite length_map in Hsub.
Qed.

(** X5: without a ledger package [getDealAuditRecords] returns the empty
    list and asks the ledger nothing; when the event query raises, it
    throws an [Error] whose message is "Failed to query audit records: "
    followed by the message of what was raised, and no object was
    fetched. *)
Theorem getDealAuditRecords_unconfigured_or_unreachable (dealId : string) (w : W) :
  (truthy_string (earnout_packageId cfg) = false ->
   fst (run (getDealAuditRecords sdk cfg dealId) w) = inr []
   /\ calls (snd (run (getDealAuditRecords sdk cfg dealId) w)) = []
   /\ world (snd (run (getDealAuditRecords sdk cfg dealId) w)) = w)
  /\ (forall e w0,
         truthy_string (earnout_packageId cfg) = true ->
         client_queryEvents sdk
           {| qe_MoveEventType :=
                or_empty (earnout_packageId cfg) +:+ "::earnout::DataAuditRecordCreated";
              qe_limit := 1000 |} w = (inl e, w0) ->
         fst (run (getDealAuditRecords sdk cfg dealId) w)
         = inl (ErrorObj ("Failed to query audit records: " +:+ error_message e))
         /\ calls (snd (run (getDealAuditRecords sdk cfg dealId) w))
            = [SuiQueryEvents
                 {| qe_MoveEventType :=
                      or_empty (earnout_packageId cfg)
                      +:+ "::earnout::DataAuditRecordCreated";
                    qe_limit := 1000 |}]).
Proof.
  split.
  - intros Hpkg. unfold getDealAuditRecords. unfold_monad. rewrite Hpkg.
    destruct (debug_sui cfg); simpl; repeat split.
  - intros e w0 Hpkg Hevents. unfold getDealAuditRecords. unfold_monad. rewrite Hpkg.
    destruct (debug_sui cfg); simpl; rewrite Hevents; simpl; split; reflexivity.
Qed.

(** X6: the candidates of a deal are exactly the record identifiers
    announced for it: an identifier is a candidate if and only if some
    scanned event names this deal and that identifier, and the
    identifier is not empty. *)
Theorem auditRecordIds_of_announced (dealId recordId : string) (events : list SuiEvent) :
  In recordId (auditRecordIds_of dealId events)
  <-> exists event, In event events /\ announces dealId recordId event.
Proof.
  unfold announces. induction events as [|event rest IH]; simpl.
  - split; [tauto | intros (event & [] & _)].
  - destruct (deal_id event) as [d|] eqn:Hd, (audit_record_id event) as [a|] eqn:Ha;
      try (rewrite IH; split;
           [intros (ev & Hin & H); exists ev; split; [right; exact Hin | exact H]
           |intros (ev & [<- | Hin] & Hdeal & Hrec & Hne);
            [congruence | exists ev; auto]]; fail).
    destruct (String.eqb_spec d dealId) as [-> | Hdne],
             (String.eqb_spec a "") as [-> | Hane]; simpl; rewrite ?IH.
    + split.
      * intros (ev & Hin & H). exists ev. split; [right; exact Hin | exact H].
      * intros (ev & [<- | Hin] & Hdeal & Hrec & Hne); [congruence | exists ev; auto].
    + split.
      * intros [<- | (ev & Hin & H)].
        -- exists event. repeat split; auto.
        -- exists ev. split; [right; exact Hin | exact H].
      * intros (ev & [<- | Hin] & Hdeal & Hrec & Hne).
        -- left. congruence.
        -- right. exists ev. auto.
    + split.
      * intros (ev & Hin & H). exists ev. split; [right; exact Hin | exact H].
      * intros (ev & [<- | Hin] & Hdeal & Hrec & Hne); [congruence | exists ev; auto].
    + split.
      * intros (ev & Hin & H). exists ev. split; [right; exact Hin | exact H].
      * intros (ev & [<- | Hin] & Hdeal & Hrec & Hne); [congruence | exists ev; auto].
Qed.

(** [getBlobAuditRecord] in terms of the outcome of the query it wraps. *)
Lemma getBlobAuditRecord_outcome (dealId blobId : string) (w : W) :
  fst (run (getBlobAuditRecord sdk cfg dealId blobId) w)
  = inr (match fst (run (getDealAuditRecords sdk cfg dealId) w) with
         | inr records =>
             List.find (fun record => String.eqb (dataId record) blobId) records
         | inl _ => None
         end).
Proof.
  unfold getBlobAuditRecord, run, try_catch, bind.
  destruct (getDealAuditRecords sdk cfg dealId _) as [[e|records] st]; reflexivity.
Qed.

(** X7: [getBlobAuditRecord] never throws: when [getDealAuditRecords]
    throws it answers [null], and when that returns records it answers
    the first of them whose [dataId] is the blob; a record it answers
    therefore always attests to the blob asked for. *)
Theorem getBlobAuditRecord_never_throws (dealId blobId : string) (w : W) :
  exists answer,
    fst (run (getBlobAuditRecord sdk cfg dealId blobId) w) = inr answer
    /\ (forall e st,
           run (getDealAuditRecords sdk cfg dealId) w = (inl e, st) -> answer = None)
    /\ (forall records st,
           run (getDealAuditRecords sdk cfg dealId) w = (inr records, st) ->
           answer = List.find (fun record => String.eqb (dataId record) blobId) records)
    /\ (forall record, answer = Some record -> dataId record = blobId).
Proof.
  eexists. split; [apply getBlobAuditRecord_outcome |].
  split; [| split].
  - intros e st ->. reflexivity.
  - intros records st ->. reflexivity.
  - destruct (fst (run (getDealAuditRecords sdk cfg dealId) w)) as [e|records];
      intros record Hfind; [discriminate |].
    apply find_some in Hfind as [_ Heq]. now apply String.eqb_eq in Heq.
Qed.

(** X8: once the event scan has answered, [getBlobAuditRecord] answers
    the record of the first candidate, in event order, whose fetch
    answered with an object attesting to the blob; a candidate whose
    fetch failed is passed over, a later one can still be found. *)
Theorem getBlobAuditRecord_first_match
    (dealId blobId : string) (w w0 : W) (events : EventPage) :
  truthy_string (earnout_packageId cfg) = true ->
  client_queryEvents sdk
    {| qe_MoveEventType :=
         or_empty (earnout_packageId cfg) +:+ "::earnout::DataAuditRecordCreated";
       qe_limit := 1000 |} w = (inr events, w0) ->
  let ids := auditRecordIds_of dealId (events_data events) in
  fst (run (getBlobAuditRecord sdk cfg dealId blobId) w)
  = inr (List.find (fun record => String.eqb (dataId record) blobId)
                   (omap (fun p => record_of_answer (fst p) (snd p))
                         (combine ids (fetch_answers sdk ids w0)))).
Proof.
  intros Hpkg Hevents ids.
  destruct (getDealAuditRecords_collects sdk cfg dealId w w0 events Hpkg Hevents)
    as (st & Hrun).
  rewrite getBlobAuditRecord_outcome, Hrun. reflexivity.
Qed.

(** X9: [getDealBlobIds] distinguishes three empty cases: without a
    ledger package it returns the empty list without asking the ledger;
    for a deal object without a [walrus_blobs] array it returns the empty
    list after one fetch; for a deal the ledger does not have it throws
    "Failed to query on-chain blob data: Deal not found: " followed by
    the deal identifier. *)
Theorem getDealBlobIds_empty_cases (dealId : string) (w : W) :
  (truthy_string (earnout_packageId cfg) = false ->
   fst (run (getDealBlobIds sdk cfg dealId) w) = inr []
   /\ calls (snd (run (getDealBlobIds sdk cfg dealId) w)) = [])
  /\ (forall fields w1,
         truthy_string (earnout_packageId cfg) = true ->
         client_getObject sdk (deal_request dealId) w
         = (inr {| data := Some {| content := Some (moveObject fields) |} |}, w1) ->
         (forall entries, fields !! "walrus_blobs" <> Some (MBlobs entries)) ->
         fst (run (getDealBlobIds sdk cfg dealId) w) = inr []
         /\ calls (snd (run (getDealBlobIds sdk cfg dealId) w))
            = [SuiGetObject (deal_request dealId)])
  /\ (forall w1,
         truthy_string (earnout_packageId cfg) = true ->
         client_getObject sdk (deal_request dealId) w = (inr {| data := None |}, w1) ->
         fst (run (getDealBlobIds sdk cfg dealId) w)
         = inl (ErrorObj ("Failed to query on-chain blob data: "
                          +:+ ("Deal not found: " +:+ dealId)))).
Proof.
  unfold getDealBlobIds, deal_request. unfold_monad.
  split; [| split].
  - intros ->. destruct (debug_sui cfg); simpl; split; reflexivity.
  - intros fields w1 -> Hget Hno.
    destruct (debug_sui cfg); simpl; rewrite Hget; simpl;
      (destruct (fields !! "walrus_blobs") as [[| |entries| |]|] eqn:Hblobs;
       simpl; try (split; reflexivity);
       exfalso; apply (Hno entries); reflexivity).
  - intros w1 -> Hget.
    destruct (debug_sui cfg); simpl; rewrite Hget; reflexivity.
Qed.

(** X10: [getDealBlobIds] reads the camelCase [blobId] only: for a deal
    whose entries store their values under the snake_case names it
    returns one [undefined] per entry, while for the camelCase entries
    it returns the stored identifiers, in order. *)
Theorem getDealBlobIds_reads_camelCase_only
    (dealId : string) (w w1 : W) (fields : gmap string MoveValue)
    (values : list BlobValues) :
  truthy_string (earnout_packageId cfg) = true ->
  client_getObject sdk (deal_request dealId) w
  = (inr {| data := Some {| content := Some (moveObject fields) |} |}, w1) ->
  (fields !! "walrus_blobs" = Some (MBlobs (map snake_entry values)) ->
   fst (run (getDealBlobIds sdk cfg dealId) w) = inr (map (fun _ => None) values))
  /\ (fields !! "walrus_blobs" = Some (MBlobs (map camel_entry values)) ->
      fst (run (getDealBlobIds sdk cfg dealId) w) = inr (map v_blob values)).
Proof.
  intros Hpkg Hget. unfold getDealBlobIds, deal_request in *. unfold_monad.
  rewrite Hpkg.
  split; intros Hblobs;
    (destruct (debug_sui cfg); simpl; rewrite Hget; simpl; rewrite Hblobs; simpl;
     rewrite map_map; reflexivity).
Qed.

Lemma classic_range (blob : Entry.t) :
  upload_time_in_range blob \/ ~ upload_time_in_range blob.
Proof.
  unfold upload_time_in_range.
  destruct (truthy_number (Entry.uploaded_at blob));
    [| destruct (truthy_number (Entry.uploadedAt blob))]; try lia; tauto.
Qed.

(** The mapping function succeeds exactly on entries whose upload time
    is in range, leaves the state alone, and otherwise throws the
    [RangeError] of [toISOString]. *)
Lemma blobReference_of_outcome (blob : Entry.t) (st : State W) :
  (upload_time_in_range blob ->
   exists reference, blobReference_of sdk blob st = (inr reference, st))
  /\ (~ upload_time_in_range blob ->
      blobReference_of sdk blob st = (inl (ErrorObj "Invalid time value"), st)).
Proof.
  unfold blobReference_of, upload_time_in_range, bind, lift, ret, Date_toISOString.
  destruct (truthy_number (Entry.uploaded_at blob));
    [| destruct (truthy_number (Entry.uploadedAt blob))];
    rewrite ?now_iso_returns;
    try match goal with
      | |- context [Z.abs ?t <=? max_time_value] =>
          destruct (Z.leb_spec (Z.abs t) max_time_value)
      end;
    split; intros Hrange; try (eexists; reflexivity); try reflexivity;
    try lia; try (exfalso; apply Hrange; exact I).
Qed.

Lemma mapM_blobReference_of (entries : list Entry.t) (st : State W) :
  (Forall upload_time_in_range entries ->
   exists references,
     mapM (blobReference_of sdk) entries st = (inr references, st)
     /\ length references = length entries)
  /\ (~ Forall upload_time_in_range entries ->
      mapM (blobReference_of sdk) entries st = (inl (ErrorObj "Invalid time value"), st)).
Proof.
  induction entries as [|blob rest IH].
  - split; [intros _; exists []; split; reflexivity |].
    intros H. exfalso. apply H. constructor.
  - unfold mapM; fold (@mapM W). unfold bind, ret.
    destruct (blobReference_of_outcome blob st) as [Hok Hbad].
    destruct IH as [IHok IHbad]. split.
    + intros Hall. inversion Hall as [|? ? Hblob Hrest]; subst.
      destruct (Hok Hblob) as (reference & ->).
      destruct (IHok Hrest) as (references & -> & Hlen).
      eexists. split; [reflexivity |]. simpl. now rewrite Hlen.
    + intros Hnot.
      destruct (classic_range blob) as [Hblob | Hblob].
      * destruct (Hok Hblob) as (reference & ->).
        rewrite IHbad; [reflexivity |].
        intros Hrest. apply Hnot. now constructor.
      * now rewrite (Hbad Hblob).
Qed.

(** X11: for a deal found with a [walrus_blobs] array,
    [getDealBlobReferences] returns one reference per entry when every
    entry's upload time is a valid time value, and otherwise - a single
    entry out of range suffices - throws "Failed to query on-chain blob
    data: Invalid time value" and returns no reference at all. *)
Theorem getDealBlobReferences_all_or_nothing
    (dealId : string) (w w1 : W) (fields : gmap string MoveValue)
    (entries : list Entry.t) :
  truthy_string (earnout_packageId cfg) = true ->
  client_getObject sdk (deal_request dealId) w
  = (inr {| data := Some {| content := Some (moveObject fields) |} |}, w1) ->
  fields !! "walrus_blobs" = Some (MBlobs entries) ->
  (Forall upload_time_in_range entries ->
   exists references st,
     run (getDealBlobReferences sdk cfg dealId) w = (inr references, st)
     /\ length references = length entries)
  /\ (~ Forall upload_time_in_range entries ->
      fst (run (getDealBlobReferences sdk cfg dealId) w)
      = inl (ErrorObj ("Failed to query on-chain blob data: " +:+ "Invalid time value"))).
Proof.
  intros Hpkg Hget Hblobs.
  unfold getDealBlobReferences, deal_request in *. unfold_monad. rewrite Hpkg.
  split; intros Hrange;
    (destruct (debug_sui cfg); simpl; rewrite Hget; simpl; rewrite Hblobs;
     match goal with
     | |- context [mapM (blobReference_of sdk) entries ?st0] =>
         destruct (mapM_blobReference_of entries st0) as [Hok Hbad]
     end).
  1, 2: destruct (Hok Hrange) as (references & -> & Hlen); simpl;
        eexists _, _; split; [reflexivity | exact Hlen].
  1, 2: rewrite (Hbad Hrange); reflexivity.
Qed.

End LedgerQueries.

(** ** Blob storage *)

Section BlobStorage.
Context {W : Type} (sdk : Sdk W) (cfg : Config).

Import WalrusService.

(** X12: a payload within the size limit given to a service without
    backend keypair makes [upload] throw "Failed to upload to Walrus:
    Backend keypair not configured for Walrus uploads" before any SDK
    request, leaving the world as it was. *)
Theorem upload_requires_keypair {BlobMetadata : Type}
    (this : WalrusService.t) (data : bytes) (metadata : BlobMetadata) (w : W) :
  Z.of_nat (length data) <= walrus_maxFileSize cfg ->
  backendKeypair this = None ->
  fst (run (upload sdk cfg this data metadata) w)
  = inl (ErrorObj ("Failed to upload to Walrus: "
                   +:+ "Backend keypair not configured for Walrus uploads"))
  /\ calls (snd (run (upload sdk cfg this data metadata) w)) = []
  /\ world (snd (run (upload sdk cfg this data metadata) w)) = w.
Proof.
  intros Hsize Hkey. unfold upload. unfold_monad. rewrite Hkey.
  destruct (Z.gtb_spec (Z.of_nat (length data)) (walrus_maxFileSize cfg)); [lia |].
  destruct (debug_walrus cfg); simpl; repeat split.
Qed.

(** X13: every successful [upload] is the outcome of exactly two SDK
    requests, the relay write of the payload followed by a read of the
    system state in the world the write left; its result has the size of
    the payload, which is within the limit, the blob identifier and the
    formatted certificate the relay answered, the configured number of
    epochs, and an end epoch that is the committee epoch read after the
    write plus that number. *)
Theorem upload_success {BlobMetadata : Type}
    (this : WalrusService.t) (data : bytes) (metadata : BlobMetadata) (w : W)
    (result : WalrusUploadResult) (st : State W) :
  run (upload sdk cfg this data metadata) w = (inr result, st) ->
  exists keypair written w1 systemState,
    backendKeypair this = Some keypair
    /\ walrusClient_writeBlobToUploadRelay sdk (relay_request cfg keypair data) w
       = (inr written, w1)
    /\ walrusClient_systemState sdk w1 = (inr systemState, world st)
    /\ calls st = [WalrusWriteBlobToUploadRelay (relay_request cfg keypair data);
                   WalrusSystemState]
    /\ blobId result = wr_blobId written
    /\ commitment result = formatCertificate (wr_certificate written)
    /\ size result = Z.of_nat (length data)
    /\ size result <= walrus_maxFileSize cfg
    /\ storageEpochs result = walrus_storageEpochs cfg
    /\ endEpoch result = committee_epoch systemState + walrus_storageEpochs cfg.
Proof.
  unfold upload, relay_request. unfold_monad.
  destruct (Z.gtb_spec (Z.of_nat (length data)) (walrus_maxFileSize cfg)) as [Hgt | Hle];
    [destruct (debug_walrus cfg); discriminate |].
  destruct (backendKeypair this) as [keypair|];
    [| destruct (debug_walrus cfg); discriminate].
  destruct (debug_walrus cfg); simpl;
    (destruct (walrusClient_writeBlobToUploadRelay sdk _ w) as [[e|written] w1] eqn:Hwrite;
     simpl; [discriminate |]);
    (destruct (walrusClient_systemState sdk w1) as [[e|systemState] w2] eqn:Hstate;
     simpl; [discriminate |]);
    rewrite ?now_iso_returns, ?clock_prints; simpl;
    intros Hrun; injection Hrun as <- <-; simpl;
    exists keypair, written, w1, systemState; repeat split; assumption.
Qed.

(** X14: when the relay has accepted the payload and the read of the
    system state then raises, [upload] throws "Failed to upload to
    Walrus: " followed by the message of what was raised - after the
    relay write has been requested and answered. *)
Theorem upload_fails_after_write {BlobMetadata : Type}
    (this : WalrusService.t) (data : bytes) (metadata : BlobMetadata) (w w1 w2 : W)
    (keypair : Ed25519Keypair) (written : WriteBlobResult) (e : Thrown) :
  Z.of_nat (length data) <= walrus_maxFileSize cfg ->
  backendKeypair this = Some keypair ->
  walrusClient_writeBlobToUploadRelay sdk (relay_request cfg keypair data) w
  = (inr written, w1) ->
  walrusClient_systemState sdk w1 = (inl e, w2) ->
  fst (run (upload sdk cfg this data metadata) w)
  = inl (ErrorObj ("Failed to upload to Walrus: " +:+ error_message e))
  /\ calls (snd (run (upload sdk cfg this data metadata) w))
     = [WalrusWriteBlobToUploadRelay (relay_request cfg keypair data); WalrusSystemState]
  /\ world (snd (run (upload sdk cfg this data metadata) w)) = w2.
Proof.
  intros Hsize Hkey Hwrite Hstate. unfold upload, relay_request in *. unfold_monad.
  rewrite Hkey.
  destruct (Z.gtb_spec (Z.of_nat (length data)) (walrus_maxFileSize cfg)); [lia |].
  destruct (debug_walrus cfg); simpl; rewrite Hwrite; simpl; rewrite Hstate; simpl;
    repeat split.
Qed.

Lemma substring0_length (n : nat) (s : string) :
  String.length (substring0 n s) = Nat.min n (String.length s).
Proof.
  unfold substring0. revert s. induction n as [|n IH]; intros [|c s]; simpl; auto.
Qed.

Lemma substring0_all (n : nat) (s : string) :
  (String.length s <= n)%nat -> substring0 n s = s.
Proof.
  unfold substring0. revert s. induction n as [|n IH]; intros [|c s]; simpl;
    intros Hlen; try reflexivity; try lia.
  f_equal. apply IH. lia.
Qed.

Arguments substring0 : simpl never.

(** X15: a commitment made by [formatCertificate] starts with the tag
    [walrus:] and has at most 71 characters; it carries the whole JSON
    text of a certificate of at most 64 characters, and exactly the first
    64 characters of a longer one - so two certificates that agree on
    their first 64 characters get the same commitment. *)
Theorem formatCertificate_bounded (certificate certificate' : Certificate) :
  String.prefix "walrus:" (formatCertificate certificate) = true
  /\ (String.length (formatCertificate certificate) <= 71)%nat
  /\ ((String.length (cert_json certificate) <= 64)%nat ->
      formatCertificate certificate = "walrus:" +:+ cert_json certificate)
  /\ ((64 <= String.length (cert_json certificate))%nat ->
      String.length (formatCertificate certificate) = 71%nat)
  /\ (substring0 64 (cert_json certificate) = substring0 64 (cert_json certificate') ->
      formatCertificate certificate = formatCertificate certificate').
Proof.
  unfold formatCertificate.
  split; [destruct (substring0 64 (cert_json certificate)); reflexivity |].
  split; [rewrite length_append, substring0_length;
          change (String.length "walrus:") with 7%nat; lia |].
  split; [intros Hlen; now rewrite substring0_all |].
  split; [intros Hlen; rewrite length_append, substring0_length;
          change (String.length "walrus:") with 7%nat; lia |].
  intros ->. reflexivity.
Qed.

(** X16: every successful [getBlobInfo] is the outcome of exactly three
    SDK requests - blob status, blob metadata, system state, in that
    order; its result names the blob asked for, has the unencoded length
    of the metadata as size, reports zero storage epochs and, as end
    epoch, the committee epoch read by the call itself. *)
Theorem getBlobInfo_success
    (this : WalrusService.t) (blob : string) (w : W) (info : BlobInfo) (st : State W) :
  run (getBlobInfo sdk cfg this blob) w = (inr info, st) ->
  exists status w1 metadata w2 systemState,
    walrusClient_getVerifiedBlobStatus sdk blob w = (inr status, w1)
    /\ walrusClient_getBlobMetadata sdk blob w1 = (inr metadata, w2)
    /\ walrusClient_systemState sdk w2 = (inr systemState, world st)
    /\ calls st = [WalrusGetVerifiedBlobStatus blob; WalrusGetBlobMetadata blob;
                   WalrusSystemState]
    /\ info_blobId info = blob
    /\ info_size info = unencoded_length (metadata_V1 metadata)
    /\ info_storageEpochs info = 0
    /\ info_endEpoch info = committee_epoch systemState.
Proof.
  unfold getBlobInfo. unfold_monad.
  destruct (debug_walrus cfg); simpl;
    (destruct (walrusClient_getVerifiedBlobStatus sdk blob w) as [[e|status] w1] eqn:Hs;
     simpl; [discriminate |]);
    (destruct (walrusClient_getBlobMetadata sdk blob w1) as [[e|metadata] w2] eqn:Hm;
     simpl; [discriminate |]);
    (destruct (walrusClient_systemState sdk w2) as [[e|systemState] w3] eqn:Hss;
     simpl; [discriminate |]);
    match goal with
    | |- context [formatMetadata metadata ?st0] =>
        destruct (formatMetadata_returns metadata st0) as (c & st' & Hf & Hw & Hc)
    end;
    rewrite Hf; simpl; rewrite ?now_iso_returns, ?clock_prints; simpl;
    intros Hrun; injection Hrun as <- <-; simpl in *;
    exists status, w1, metadata, w2, systemState; rewrite Hw, Hc;
    repeat split; assumption.
Qed.

(** X17: [getBlobInfo] stops at the first client call that raises and
    throws "Failed to get blob info: " followed by the message of what
    was raised: after a failed status check no metadata is requested,
    and after a failed metadata request no system state is read. *)
Theorem getBlobInfo_stops_at_first_failure
    (this : WalrusService.t) (blob : string) (w : W) :
  (forall e w1,
      walrusClient_getVerifiedBlobStatus sdk blob w = (inl e, w1) ->
      fst (run (getBlobInfo sdk cfg this blob) w)
      = inl (ErrorObj ("Failed to get blob info: " +:+ error_message e))
      /\ calls (snd (run (getBlobInfo sdk cfg this blob) w))
         = [WalrusGetVerifiedBlobStatus blob])
  /\ (forall status w1 e w2,
         walrusClient_getVerifiedBlobStatus sdk blob w = (inr status, w1) ->
         walrusClient_getBlobMetadata sdk blob w1 = (inl e, w2) ->
         fst (run (getBlobInfo sdk cfg this blob) w)
         = inl (ErrorObj ("Failed to get blob info: " +:+ error_message e))
         /\ calls (snd (run (getBlobInfo sdk cfg this blob) w))
            = [WalrusGetVerifiedBlobStatus blob; WalrusGetBlobMetadata blob]).
Proof.
  unfold getBlobInfo. unfold_monad. split.
  - intros e w1 Hs. destruct (debug_walrus cfg); simpl; rewrite Hs; split; reflexivity.
  - intros status w1 e w2 Hs Hm.
    destruct (debug_walrus cfg); simpl; rewrite Hs; simpl; rewrite Hm; split; reflexivity.
Qed.

(** One octet is read back from its two hexadecimal digits. *)
Lemma hex_octet_round_trip (b : byte) :
  match padStart 2 "0" (toString 16 (Byte.to_N b)) with
  | String c1 (String c2 EmptyString) => hex_octet c1 c2 = Some b
  | _ => False
  end.
Proof. destruct b; vm_compute; reflexivity. Qed.

Lemma hex_decode_pair (c1 c2 : ascii) (rest : string) :
  hex_decode (String c1 (String c2 rest))
  = match hex_octet c1 c2, hex_decode rest with
    | Some b, Some bs => Some (b :: bs)
    | _, _ => None
    end.
Proof. reflexivity. Qed.

Lemma hex_decode_round_trip (bs : bytes) : hex_decode (hex_of_bytes bs) = Some bs.
Proof.
  induction bs as [|b bs IH]; [reflexivity |].
  change (hex_of_bytes (b :: bs))
    with (padStart 2 "0" (toString 16 (Byte.to_N b)) +:+ hex_of_bytes bs).
  pose proof (hex_octet_round_trip b) as Hoctet.
  destruct (padStart 2 "0" (toString 16 (Byte.to_N b))) as [|c1 [|c2 [|c3 rest]]];
    try contradiction.
  change (String c1 (String c2 "") +:+ hex_of_bytes bs)
    with (String c1 (String c2 (hex_of_bytes bs))).
  now rewrite hex_decode_pair, Hoctet, IH.
Qed.

(** X18: the commitment [formatMetadata] makes of a raw digest determines
    the digest - two metadata records get the same commitment only when
    their raw digests are the same octets - and is never the sentinel
    [walrus:unknown]. *)
Theorem formatMetadata_identifies_digest
    (metadata metadata' : BlobMetadataWithId) (digest digest' : bytes)
    (st st' : State W) :
  raw_digest_of metadata digest ->
  raw_digest_of metadata' digest' ->
  (fst (formatMetadata metadata st) = fst (formatMetadata metadata' st') ->
   digest = digest')
  /\ fst (formatMetadata metadata st) <> inr "walrus:unknown".
Proof.
  intros Hd Hd'.
  rewrite (formatMetadata_digest _ _ st Hd), (formatMetadata_digest _ _ st' Hd').
  simpl. split.
  - intros Heq. injection Heq as Heq.
    change (hex_of_bytes digest = hex_of_bytes digest') in Heq.
    assert (Hdec : hex_decode (hex_of_bytes digest) = hex_decode (hex_of_bytes digest'))
      by now rewrite Heq.
    rewrite !hex_decode_round_trip in Hdec. now injection Hdec.
  - intros Heq. injection Heq as Heq.
    change (hex_of_bytes digest = "unknown") in Heq.
    pose proof (hex_of_bytes_lower digest) as Hlower.
    rewrite Heq in Hlower. vm_compute in Hlower. discriminate.
Qed.

End BlobStorage.

(** ** Encryption *)

Section Encryption.
Context {W : Type} (sdk : Sdk W) (cfg : Config).

Import SealService.

(** X19: past its guards [encrypt] makes exactly one SDK request, a
    2-out-of-n encryption of the plaintext for the deal identifier under
    the package named before [::] in the caller's policy identifier; the
    configured policy identifier is only tested for presence, so another
    configured identifier changes nothing in the run. *)
Theorem encrypt_uses_callers_policy
    (this : SealService.t) (plaintext : bytes) (encryptionConfig : SealEncryptionConfig)
    (other : string) (w : W) :
  app_enableServerEncryption cfg = true ->
  truthy_string (seal_policyObjectId cfg) = true ->
  truthy_string (Some other) = true ->
  calls (snd (run (encrypt sdk cfg this plaintext encryptionConfig) w))
  = [SealEncrypt (encrypt_request plaintext encryptionConfig)]
  /\ run (encrypt sdk (with_policy cfg (Some other)) this plaintext encryptionConfig) w
     = run (encrypt sdk cfg this plaintext encryptionConfig) w.
Proof.
  intros Henabled Hpolicy Hother. unfold encrypt, encrypt_request.
  cbn [with_policy app_enableServerEncryption seal_policyObjectId debug_seal].
  rewrite Henabled, Hpolicy, Hother. cbn [negb]. split; [| reflexivity].
  unfold_monad.
  destruct (debug_seal cfg); simpl;
    (destruct (sealClient_encrypt sdk _ w) as [[e|encryptedObject] w1]; simpl;
     [reflexivity |]);
    rewrite ?now_iso_returns, ?clock_prints; reflexivity.
Qed.




(** X22: every successful [decrypt] is the outcome of exactly three SDK
    requests: a ten-minute session opened for the backend's address and
    signed by the backend keypair, under the package of the configured
    policy; a fetch of 2 key shares for the identity parsed from the
    ciphertext, in that session; and the decryption of the ciphertext in
    that session with share consistency checked.  The plaintext is what
    the last request answered, the metadata names the configured
    policy; the user's address appears in none of the requests. *)
Theorem decrypt_success
    (this : SealService.t) (ciphertext : bytes) (deal userAddress : string) (w : W)
    (result : SealDecryptionResult) (st : State W) :
  run (decrypt sdk cfg this ciphertext deal userAddress) w = (inr result, st) ->
  exists keypair blob policy sessionKey w1 w2,
    backendKeypair this = Some keypair
    /\ EncryptedObject_parse sdk ciphertext = inr blob
    /\ seal_policyObjectId cfg = Some policy
    /\ SessionKey_create sdk (session_request sdk keypair policy) w = (inr sessionKey, w1)
    /\ sealClient_fetchKeys sdk (keys_request blob sessionKey) w1 = (inr tt, w2)
    /\ sealClient_decrypt sdk (plaintext_request ciphertext sessionKey) w2
       = (inr (plaintext result), world st)
    /\ calls st = [SessionKeyCreate (session_request sdk keypair policy);
                   SealFetchKeys (keys_request blob sessionKey);
                   SealDecrypt (plaintext_request ciphertext sessionKey)]
    /\ meta_policyObjectId (metadata result) = policy.
Proof.
  unfold decrypt, session_request, keys_request, plaintext_request.
  destruct (app_enableServerEncryption cfg); cbn [negb]; [| discriminate].
  destruct (backendKeypair this) as [keypair|]; [| discriminate].
  unfold_monad.
  destruct (debug_seal cfg); simpl;
    (destruct (EncryptedObject_parse sdk ciphertext) as [e|blob]; simpl; [discriminate |]);
    (destruct (seal_policyObjectId cfg) as [policy|]; simpl; [| discriminate]);
    (destruct (SessionKey_create sdk _ w) as [[e|sessionKey] w1] eqn:Hsession; simpl;
     [discriminate |]);
    (destruct (sealClient_fetchKeys sdk _ w1) as [[e|[]] w2] eqn:Hkeys; simpl;
     [discriminate |]);
    (destruct (sealClient_decrypt sdk _ w2) as [[e|plain] w3] eqn:Hplain; simpl;
     [discriminate |]);
    rewrite ?now_iso_returns, ?clock_prints; simpl;
    intros Hrun; injection Hrun as <- <-; simpl;
    exists keypair, blob, policy, sessionKey, w1, w2; repeat split; assumption.
Qed.

(** X23: when the key servers refuse the key shares, [decrypt] throws
    "Failed to decrypt data: " followed by the message of the refusal
    and never requests the decryption. *)
Theorem decrypt_stops_when_keys_refused
    (this : SealService.t) (ciphertext : bytes) (deal userAddress : string) (w w1 w2 : W)
    (keypair : Ed25519Keypair) (blob : EncryptedObject) (policy : string)
    (sessionKey : SessionKey) (refusal : Thrown) :
  app_enableServerEncryption cfg = true ->
  backendKeypair this = Some keypair ->
  EncryptedObject_parse sdk ciphertext = inr blob ->
  seal_policyObjectId cfg = Some policy ->
  SessionKey_create sdk (session_request sdk keypair policy) w = (inr sessionKey, w1) ->
  sealClient_fetchKeys sdk (keys_request blob sessionKey) w1 = (inl refusal, w2) ->
  fst (run (decrypt sdk cfg this ciphertext deal userAddress) w)
  = inl (ErrorObj ("Failed to decrypt data: " +:+ error_message refusal))
  /\ calls (snd (run (decrypt sdk cfg this ciphertext deal userAddress) w))
     = [SessionKeyCreate (session_request sdk keypair policy);
        SealFetchKeys (keys_request blob sessionKey)]
  /\ world (snd (run (decrypt sdk cfg this ciphertext deal userAddress) w)) = w2.
Proof.
  intros Henabled Hkey Hparse Hpolicy Hsession Hkeys.
  unfold decrypt, session_request, keys_request in *.
  rewrite Henabled, Hkey, Hparse, Hpolicy. unfold_monad.
  destruct (debug_seal cfg); simpl; rewrite Hsession; simpl; rewrite Hkeys; simpl;
    repeat split.
Qed.

End Encryption.

(** ** Construction *)

Section Construction.
Context {W : Type} (sdk : Sdk W) (cfg : Config).

(** X24: a configured private key that the SDK rejects does not fail
    construction: both services are built without a backend keypair, and
    from then on every [decrypt] (with encryption enabled) and every
    [upload] of a payload within the size limit throws its
    missing-keypair error before any SDK request.  A key the SDK accepts
    gives both services that keypair. *)
Theorem rejected_key_surfaces_later {BlobMetadata : Type}
    (key : string) (ciphertext data : bytes) (deal userAddress : string)
    (metadata : BlobMetadata) (w : W) :
  sui_backendPrivateKey cfg = Some key ->
  key <> "" ->
  (forall rejection,
      Ed25519Keypair_fromSecretKey sdk (Buffer_from_base64 sdk key) = inl rejection ->
      (app_enableServerEncryption cfg = true ->
       run (SealService.decrypt sdk cfg (SealService.new sdk cfg)
                                ciphertext deal userAddress) w
       = (inl (ErrorObj "Backend keypair is not configured for decryption"),
          {| world := w; calls := []; console := [] |}))
      /\ (Z.of_nat (length data) <= walrus_maxFileSize cfg ->
          fst (run (WalrusService.upload sdk cfg (WalrusConstruction.new sdk cfg)
                                         data metadata) w)
          = inl (ErrorObj ("Failed to upload to Walrus: "
                           +:+ "Backend keypair not configured for Walrus uploads"))
          /\ calls (snd (run (WalrusService.upload sdk cfg (WalrusConstruction.new sdk cfg)
                                                   data metadata) w)) = []))
  /\ (forall keypair,
         Ed25519Keypair_fromSecretKey sdk (Buffer_from_base64 sdk key) = inr keypair ->
         SealService.backendKeypair (SealService.new sdk cfg) = Some keypair
         /\ WalrusService.backendKeypair (WalrusConstruction.new sdk cfg) = Some keypair).
Proof.
  intros Hkey Hne.
  assert (Htruthy : truthy_string (sui_backendPrivateKey cfg) = true).
  { rewrite Hkey. simpl. now destruct (String.eqb_spec key ""). }
  split.
  - intros rejection Hreject.
    assert (Hseal : SealService.backendKeypair (SealService.new sdk cfg) = None).
    { unfold SealService.new, SealService.init_backendKeypair. simpl.
      now rewrite Htruthy, Hkey, Hreject. }
    assert (Hwalrus : WalrusService.backendKeypair (WalrusConstruction.new sdk cfg) = None).
    { unfold WalrusConstruction.new, WalrusConstruction.init_backendKeypair. simpl.
      now rewrite Htruthy, Hkey, Hreject. }
    split.
    + intros Henabled. unfold SealService.decrypt. now rewrite Henabled, Hseal.
    + intros Hsize. unfold WalrusService.upload. unfold_monad. rewrite Hwalrus.
      destruct (Z.gtb_spec (Z.of_nat (length data)) (walrus_maxFileSize cfg)); [lia |].
      destruct (debug_walrus cfg); simpl; split; reflexivity.
  - intros keypair Haccept.
    unfold SealService.new, SealService.init_backendKeypair,
      WalrusConstruction.new, WalrusConstruction.init_backendKeypair. simpl.
    now rewrite Htruthy, Hkey, Haccept.
Qed.

Import JsText SealKeyServers.

Lemma split_char_length (sep : ascii) (s : string) :
  length (split_char sep s) = S (count_char sep s).
Proof.
  induction s as [|c s IH]; [reflexivity |]. simpl.
  destruct (Ascii.eqb c sep); simpl; [now rewrite IH |].
  destruct (split_char sep s) as [|piece rest]; simpl in *; [discriminate | exact IH].
Qed.

Lemma trim_start_first (s : string) (c : ascii) :
  first_char (trim_start s) = Some c -> is_white_space c = false.
Proof.
  induction s as [|d s IH]; simpl; [discriminate |].
  destruct (is_white_space d) eqn:Hd; [exact IH |].
  simpl. intros H. now injection H as <-.
Qed.

Lemma trim_end_first (s : string) (c : ascii) :
  first_char (trim_end s) = Some c -> first_char s = Some c.
Proof.
  destruct s as [|d s]; simpl; [discriminate |].
  destruct (is_white_space d && String.eqb (trim_end s) ""); [discriminate | auto].
Qed.

Lemma trim_end_last (s : string) (c : ascii) :
  last_char (trim_end s) = Some c -> is_white_space c = false.
Proof.
  induction s as [|d s IH]; simpl; [discriminate |].
  destruct (String.eqb_spec (trim_end s) "") as [Hempty | Hfull].
  - rewrite Hempty, andb_true_r.
    destruct (is_white_space d) eqn:Hd; simpl; [discriminate |].
    intros H. now injection H as <-.
  - rewrite andb_false_r. simpl.
    destruct (trim_end s) as [|e t] eqn:Ht; [congruence | exact IH].
Qed.

Lemma trim_trimmed (s : string) : trimmed (trim s).
Proof.
  unfold trimmed, trim. split; intros c Hc.
  - apply trim_end_first in Hc. now apply trim_start_first in Hc.
  - now apply trim_end_last in Hc.
Qed.

(** X25: [getKeyServerConfigs] never throws.  When the environment
    variable is not set it returns no configuration and prints three
    warnings; when it is set - even to the empty string - it prints
    nothing and returns one configuration per comma-separated piece,
    that is one more than there are commas.  Every configuration has
    weight 1 and an object identifier without white space at either
    end. *)
Theorem getKeyServerConfigs_configs (variable : option string) (st : State W) :
  exists configs st',
    getKeyServerConfigs variable st = (inr configs, st')
    /\ world st' = world st /\ calls st' = calls st
    /\ Forall (fun config => weight config = 1 /\ trimmed (objectId config)) configs
    /\ (variable = None -> configs = [] /\ length (console st') = (length (console st) + 3)%nat)
    /\ (forall ids, variable = Some ids ->
                    length configs = S (count_char "," ids) /\ console st' = console st).
Proof.
  unfold getKeyServerConfigs. unfold_monad.
  destruct variable as [ids|].
  - pose proof (split_char_length "," ids) as Hlen.
    destruct (split_char "," ids) as [|piece rest] eqn:Hsplit; [discriminate |].
    cbn [length Nat.eqb]. eexists _, _. split; [reflexivity |].
    split; [reflexivity |]. split; [reflexivity |]. split; [| split].
    + apply Forall_forall. intros config Hin. apply list_elem_of_In in Hin.
      apply in_map_iff in Hin as (s & <- & _).
      simpl. split; [reflexivity | apply trim_trimmed].
    + discriminate.
    + intros ids' Hids. injection Hids as <-. rewrite length_map. split; [exact Hlen |].
      destruct st; reflexivity.
  - eexists _, _. split; [reflexivity |].
    split; [reflexivity |]. split; [reflexivity |]. split; [constructor |]. split.
    + intros _. split; [reflexivity |]. cbn [console]. rewrite !length_app.
      cbn [length]. lia.
    + discriminate.
Qed.


End Construction.

(** ** The further properties on concrete runs *)

Section FurtherRuns.

Import Fixture Runs Samples.

(** The buyer of the sample deal is a participant. *)
Lemma verifyDealParticipant_decides_membership_witness :
  exists answer st,
    run (SuiService.verifyDealParticipant (ledger (deal_with nameless_entry)) cfg
                                          "deal-1" "0xbuyer") tt = (inr answer, st)
    /\ answer = true.
Proof.
  destruct (verifyDealParticipant_decides_membership
              (ledger (deal_with nameless_entry)) cfg "deal-1" "0xbuyer" tt tt
              (deal_with nameless_entry) eq_refl eq_refl)
    as (answer & st & Hrun & Hiff & _).
  exists answer, st. split; [exact Hrun |].
  apply Hiff. left. vm_compute. reflexivity.
Defined.

(** Nobody is a participant of a deal the ledger does not have. *)
Lemma verifyDealParticipant_unknown_deal_witness :
  fst (run (SuiService.verifyDealParticipant empty_ledger cfg "deal-9" "0xbuyer") tt)
  = inr false.
Proof.
  apply (verifyDealParticipant_unknown_deal empty_ledger cfg "deal-9" "0xbuyer" tt tt
           {| data := None |}); [reflexivity | reflexivity | discriminate].
Defined.

(** The requests of the sample audit query. *)
Lemma getDealAuditRecords_requests_witness :
  calls (snd (run (SuiService.getDealAuditRecords audit_sdk cfg "deal-1") tt))
  = SuiQueryEvents {| qe_MoveEventType := "0xpkg::earnout::DataAuditRecordCreated";
                      qe_limit := 1000 |}
    :: map (fun recordId => SuiGetObject (content_request recordId))
           ["record-1"; "record-2"; "record-3"; "record-4"; "record-5"].
Proof.
  exact (getDealAuditRecords_requests audit_sdk cfg "deal-1" tt tt
           {| events_data := audit_events |} eq_refl eq_refl).
Defined.

Lemma getDealAuditRecords_sublist_witness :
  exists records st,
    run (SuiService.getDealAuditRecords audit_sdk cfg "deal-1") tt = (inr records, st)
    /\ sublist (map SuiService.id records)
               ["record-1"; "record-2"; "record-3"; "record-4"; "record-5"]
    /\ (length records <= 5)%nat.
Proof.
  exact (getDealAuditRecords_sublist audit_sdk cfg "deal-1" tt tt
           {| events_data := audit_events |} eq_refl eq_refl).
Defined.

Lemma getDealAuditRecords_unconfigured_or_unreachable_witness :
  fst (run (SuiService.getDealAuditRecords audit_sdk bare_cfg "deal-1") tt) = inr []
  /\ fst (run (SuiService.getDealAuditRecords unreachable_sdk cfg "deal-1") tt)
     = inl (ErrorObj "Failed to query audit records: rpc unreachable").
Proof.
  split.
  - apply (proj1 (getDealAuditRecords_unconfigured_or_unreachable
                    audit_sdk bare_cfg "deal-1" tt)). reflexivity.
  - apply (proj2 (getDealAuditRecords_unconfigured_or_unreachable
                    unreachable_sdk cfg "deal-1" tt) (ErrorObj "rpc unreachable") tt);
      reflexivity.
Defined.

Lemma getBlobAuditRecord_never_throws_witness :
  exists answer,
    fst (run (SuiLookups.getBlobAuditRecord audit_sdk cfg "deal-1" "blob-1") tt)
    = inr answer
    /\ (forall record, answer = Some record -> SuiService.dataId record = "blob-1").
Proof.
  destruct (getBlobAuditRecord_never_throws audit_sdk cfg "deal-1" "blob-1" tt)
    as (answer & Hanswer & _ & _ & Hblob).
  exists answer. split; [exact Hanswer | exact Hblob].
Defined.

(** The record found for the sample blob is that of the first event. *)
Lemma getBlobAuditRecord_first_match_witness :
  exists record,
    fst (run (SuiLookups.getBlobAuditRecord audit_sdk cfg "deal-1" "blob-1") tt)
    = inr (Some record)
    /\ SuiService.id record = "record-1".
Proof.
  eexists. split.
  - etransitivity.
    + exact (getBlobAuditRecord_first_match audit_sdk cfg "deal-1" "blob-1" tt tt
               {| events_data := audit_events |} eq_refl eq_refl).
    + vm_compute. reflexivity.
  - reflexivity.
Defined.

Lemma getDealBlobIds_empty_cases_witness :
  fst (run (SuiLookups.getDealBlobIds plain_sdk bare_cfg "deal-1") tt) = inr []
  /\ fst (run (SuiLookups.getDealBlobIds (ledger blobless_deal) cfg "deal-1") tt) = inr []
  /\ fst (run (SuiLookups.getDealBlobIds empty_ledger cfg "deal-9") tt)
     = inl (ErrorObj "Failed to query on-chain blob data: Deal not found: deal-9").
Proof.
  split; [| split].
  - apply (proj1 (getDealBlobIds_empty_cases plain_sdk bare_cfg "deal-1" tt)).
    reflexivity.
  - apply (proj1 (proj2 (getDealBlobIds_empty_cases (ledger blobless_deal) cfg
                           "deal-1" tt)) blobless_deal tt);
      [reflexivity | reflexivity | intros entries; vm_compute; discriminate].
  - apply (proj2 (proj2 (getDealBlobIds_empty_cases empty_ledger cfg "deal-9" tt)) tt);
      reflexivity.
Defined.

Lemma getDealBlobIds_reads_camelCase_only_witness :
  fst (run (SuiLookups.getDealBlobIds (ledger (deal_with (snake_entry one_second)))
                                      cfg "deal-1") tt)
  = inr [None]
  /\ fst (run (SuiLookups.getDealBlobIds (ledger (deal_with (camel_entry one_second)))
                                         cfg "deal-1") tt)
     = inr [Some "blob-1"].
Proof.
  split.
  - apply (proj1 (getDealBlobIds_reads_camelCase_only
                    (ledger (deal_with (snake_entry one_second))) cfg "deal-1" tt tt
                    (deal_with (snake_entry one_second)) [one_second] eq_refl eq_refl)).
    vm_compute. reflexivity.
  - apply (proj2 (getDealBlobIds_reads_camelCase_only
                    (ledger (deal_with (camel_entry one_second))) cfg "deal-1" tt tt
                    (deal_with (camel_entry one_second)) [one_second] eq_refl eq_refl)).
    vm_compute. reflexivity.
Defined.

Lemma getDealBlobReferences_all_or_nothing_witness :
  (exists references st,
      run (SuiService.getDealBlobReferences (ledger (deal_with nameless_entry))
                                            cfg "deal-1") tt = (inr references, st)
      /\ length references = 1%nat)
  /\ fst (run (SuiService.getDealBlobReferences (ledger (deal_with late_entry))
                                                cfg "deal-1") tt)
     = inl (ErrorObj "Failed to query on-chain blob data: Invalid time value").
Proof.
  split.
  - apply (proj1 (getDealBlobReferences_all_or_nothing
                    (ledger (deal_with nameless_entry)) cfg "deal-1" tt tt
                    (deal_with nameless_entry) [nameless_entry] eq_refl eq_refl
                    ltac:(vm_compute; reflexivity))).
    constructor; [| constructor].
    unfold upload_time_in_range. simpl. unfold max_time_value. lia.
  - apply (proj2 (getDealBlobReferences_all_or_nothing
                    (ledger (deal_with late_entry)) cfg "deal-1" tt tt
                    (deal_with late_entry) [late_entry] eq_refl eq_refl
                    ltac:(vm_compute; reflexivity))).
    intros Hall. inversion Hall as [|? ? Hlate _]; subst.
    unfold upload_time_in_range in Hlate. simpl in Hlate.
    unfold max_time_value in Hlate. lia.
Defined.

Lemma upload_requires_keypair_witness :
  fst (run (WalrusService.upload plain_sdk cfg
              {| WalrusService.backendKeypair := None |} four_octets tt) tt)
  = inl (ErrorObj
           "Failed to upload to Walrus: Backend keypair not configured for Walrus uploads")
  /\ calls (snd (run (WalrusService.upload plain_sdk cfg
                        {| WalrusService.backendKeypair := None |} four_octets tt) tt))
     = [].
Proof.
  destruct (upload_requires_keypair plain_sdk cfg
              {| WalrusService.backendKeypair := None |} four_octets tt tt)
    as (Hthrown & Hcalls & _);
    [vm_compute; discriminate | reflexivity |].
  split; [exact Hthrown | exact Hcalls].
Defined.

Lemma upload_success_witness :
  exists result st,
    run (WalrusService.upload plain_sdk cfg walrus four_octets tt) tt = (inr result, st)
    /\ WalrusService.size result = 4
    /\ WalrusService.size result <= walrus_maxFileSize cfg
    /\ length (calls st) = 2%nat.
Proof.
  eexists _, _. split; [vm_compute; reflexivity |].
  edestruct (upload_success plain_sdk cfg walrus four_octets tt tt)
    as (kp & written & w1 & systemState & _ & _ & _ & Hcalls & _ & _ & Hsize & Hmax & _);
    [vm_compute; reflexivity |].
  split; [exact Hsize |]. split; [exact Hmax |]. now rewrite Hcalls.
Defined.

Lemma upload_fails_after_write_witness :
  fst (run (WalrusService.upload unreachable_sdk cfg walrus four_octets tt) tt)
  = inl (ErrorObj "Failed to upload to Walrus: Unknown error")
  /\ calls (snd (run (WalrusService.upload unreachable_sdk cfg walrus four_octets tt) tt))
     = [WalrusWriteBlobToUploadRelay (relay_request cfg keypair four_octets);
        WalrusSystemState].
Proof.
  destruct (upload_fails_after_write unreachable_sdk cfg walrus four_octets tt tt tt tt
              keypair {| wr_blobId := "blob-1"; wr_certificate := {| cert_json := "{}" |} |}
              (NonError "503"))
    as (Hthrown & Hcalls & _);
    [vm_compute; discriminate | reflexivity | reflexivity | reflexivity |].
  split; [exact Hthrown | exact Hcalls].
Defined.

Lemma formatCertificate_bounded_witness :
  WalrusService.formatCertificate {| cert_json := "{}" |} = "walrus:{}".
Proof.
  apply (proj1 (proj2 (proj2 (formatCertificate_bounded
                                {| cert_json := "{}" |} {| cert_json := "{}" |})))).
  simpl. lia.
Defined.

Lemma getBlobInfo_success_witness :
  exists info st,
    run (WalrusService.getBlobInfo plain_sdk cfg walrus "blob-1") tt = (inr info, st)
    /\ WalrusService.info_blobId info = "blob-1"
    /\ WalrusService.info_storageEpochs info = 0
    /\ length (calls st) = 3%nat.
Proof.
  eexists _, _. split; [vm_compute; reflexivity |].
  edestruct (getBlobInfo_success plain_sdk cfg walrus "blob-1" tt)
    as (status & w1 & metadata & w2 & systemState & _ & _ & _ & Hcalls & Hblob & _ & Hepochs & _);
    [vm_compute; reflexivity |].
  split; [exact Hblob |]. split; [exact Hepochs |]. now rewrite Hcalls.
Defined.

Lemma getBlobInfo_stops_at_first_failure_witness :
  fst (run (WalrusService.getBlobInfo unreachable_sdk cfg walrus "blob-1") tt)
  = inl (ErrorObj "Failed to get blob info: blob not certified")
  /\ calls (snd (run (WalrusService.getBlobInfo unreachable_sdk cfg walrus "blob-1") tt))
     = [WalrusGetVerifiedBlobStatus "blob-1"].
Proof.
  exact (proj1 (getBlobInfo_stops_at_first_failure unreachable_sdk cfg walrus "blob-1" tt)
           (ErrorObj "blob not certified") tt eq_refl).
Defined.

Lemma formatMetadata_identifies_digest_witness :
  fst (WalrusService.formatMetadata digest_metadata initial) <> inr "walrus:unknown".
Proof.
  apply (formatMetadata_identifies_digest digest_metadata digest_metadata
           [x0a; xff] [x0a; xff] initial initial);
    eexists _, _, _; repeat split.
Defined.

Lemma encrypt_uses_callers_policy_witness :
  calls (snd (run (SealService.encrypt plain_sdk cfg seal four_octets encryptionConfig) tt))
  = [SealEncrypt (encrypt_request four_octets encryptionConfig)]
  /\ run (SealService.encrypt plain_sdk (with_policy cfg (Some "0xother::policy")) seal
                              four_octets encryptionConfig) tt
     = run (SealService.encrypt plain_sdk cfg seal four_octets encryptionConfig) tt.
Proof.
  apply (encrypt_uses_callers_policy plain_sdk cfg seal four_octets encryptionConfig
           "0xother::policy" tt); reflexivity.
Defined.



Lemma decrypt_success_witness :
  exists result st,
    run (SealService.decrypt plain_sdk cfg seal sealed "deal-1" "0xstranger") tt
    = (inr result, st)
    /\ SealService.plaintext result = sealed
    /\ length (calls st) = 3%nat.
Proof.
  eexists _, _. split; [vm_compute; reflexivity |].
  edestruct (decrypt_success plain_sdk cfg seal sealed "deal-1" "0xstranger" tt)
    as (kp & blob & policy & sessionKey & w1 & w2 & _ & _ & _ & _ & _ & _ & Hcalls & _);
    [vm_compute; reflexivity |].
  split; [reflexivity | now rewrite Hcalls].
Defined.

Lemma decrypt_stops_when_keys_refused_witness :
  fst (run (SealService.decrypt refusing_sdk cfg seal sealed "deal-1" "0xbuyer") tt)
  = inl (ErrorObj "Failed to decrypt data: access denied")
  /\ calls (snd (run (SealService.decrypt refusing_sdk cfg seal sealed
                                          "deal-1" "0xbuyer") tt))
     = [SessionKeyCreate (session_request refusing_sdk keypair "0xpkg::earnout_seal_policy");
        SealFetchKeys (keys_request {| eo_id := "deal-1" |}
                                    {| session_token := "session" |})].
Proof.
  destruct (decrypt_stops_when_keys_refused refusing_sdk cfg seal sealed
              "deal-1" "0xbuyer" tt tt tt keypair {| eo_id := "deal-1" |}
              "0xpkg::earnout_seal_policy" {| session_token := "session" |}
              (ErrorObj "access denied") eq_refl eq_refl eq_refl eq_refl eq_refl eq_refl)
    as (Hthrown & Hcalls & _).
  split; [exact Hthrown | exact Hcalls].
Defined.

Lemma rejected_key_surfaces_later_witness :
  run (SealService.decrypt rejecting_sdk cfg (SealService.new rejecting_sdk cfg)
                           sealed "deal-1" "0xbuyer") tt
  = (inl (ErrorObj "Backend keypair is not configured for decryption"), initial)
  /\ SealService.backendKeypair (SealService.new plain_sdk cfg)
     = Some {| secretKey := list_byte_of_string "c2VjcmV0" |}.
Proof.
  split.
  - apply (proj1 (proj1 (rejected_key_surfaces_later rejecting_sdk cfg "c2VjcmV0"
                           sealed four_octets "deal-1" "0xbuyer" tt tt
                           eq_refl ltac:(discriminate))
                        (ErrorObj "Wrong secretKey size") eq_refl)).
    reflexivity.
  - apply (proj2 (rejected_key_surfaces_later plain_sdk cfg "c2VjcmV0"
                    sealed four_octets "deal-1" "0xbuyer" tt tt
                    eq_refl ltac:(discriminate))).
    reflexivity.
Defined.

(** A variable set to the empty string yields one configuration, with an
    empty object identifier, and no warning. *)
Lemma getKeyServerConfigs_configs_witness :
  exists configs st',
    SealKeyServers.getKeyServerConfigs (Some "") initial = (inr configs, st')
    /\ length configs = 1%nat
    /\ console st' = [].
Proof.
  destruct (getKeyServerConfigs_configs (Some "") initial)
    as (configs & st' & Hrun & _ & _ & _ & _ & Hset).
  exists configs, st'. split; [exact Hrun |].
  exact (Hset "" eq_refl).
Defined.


End FurtherRuns.
